(** * Publish-modal form label and PHP chunk manifest template

    A shallow embedding of two pieces of the web-stories-wp sources:

    - [packages/story-editor/src/components/publishModal/mainContent/formLabel.js]
      (the [FormLabel] component), and
    - [webpack.config.cjs] (the [templateContent] template handed to
      html-webpack-plugin, together with its helper [filenameOf]).

    JavaScript strings are sequences of UTF-16 code units; they are modelled
    as [list N], one number per code unit.  The built-ins the two sources
    call ([String.prototype.lastIndexOf], [substr], [substring],
    [Array.prototype.indexOf], [map], [filter], [JSON.stringify]) are
    written out after ECMA-262. *)

From Stdlib Require Import ZArith NArith List Ascii String Lia.
From stdpp Require Import base option list gmap.

Local Open Scope Z_scope.

(** ** JavaScript strings *)

Abbreviation code_unit := N (only parsing).
Abbreviation jsstring := (list N) (only parsing).

(** A string literal of the source, as code units (the literals of the two
    sources are ASCII, one code unit per character). *)
Definition str (s : string) : jsstring :=
  List.map N_of_ascii (list_ascii_of_string s).

Module JSString.

(** [s.length] *)
Definition length (s : jsstring) : Z := Z.of_nat (List.length s).

(** "The substring of S from [from] to [to]" of ECMA-262, for
    [0 <= from <= to <= length s]. *)
Definition slice (s : jsstring) (from to : Z) : jsstring :=
  take (Z.to_nat (to - from)) (drop (Z.to_nat from) s).

(** Does [s] start with [search]? *)
Fixpoint starts_with (search s : jsstring) : bool :=
  match search, s with
  | [], _ => true
  | _ :: _, [] => false
  | c :: search', d :: s' => N.eqb c d && starts_with search' s'
  end.

(** Scan of [s] from index [k] on, keeping in [acc] the greatest index
    seen so far at which [search] occurs. *)
Fixpoint lastIndexOf_from (search s : jsstring) (k acc : Z) : Z :=
  let acc' := if starts_with search s then k else acc in
  match s with
  | [] => acc'
  | _ :: s' => lastIndexOf_from search s' (k + 1) acc'
  end.

(** [s.lastIndexOf(search)], no position argument: the greatest index at
    which [search] occurs in [s], or [-1]. *)
Definition lastIndexOf (s search : jsstring) : Z :=
  lastIndexOf_from search s 0 (-1).

(** [s.substr(start)], no length argument (ECMA-262 B.2.2.1): a negative
    [start] counts from the end, and the result runs to the end of [s]. *)
Definition substr (s : jsstring) (start : Z) : jsstring :=
  let size := length s in
  let intStart :=
    if start <? 0 then Z.max (size + start) 0 else Z.min start size in
  let intLength := size in
  let intEnd := Z.min (intStart + intLength) size in
  slice s intStart intEnd.

(** [s.substring(start, end)]: both arguments are clamped to
    [0 .. length s] and swapped when out of order. *)
Definition substring (s : jsstring) (start end_ : Z) : jsstring :=
  let len := length s in
  let finalStart := Z.min (Z.max start 0) len in
  let finalEnd := Z.min (Z.max end_ 0) len in
  let from := Z.min finalStart finalEnd in
  let to := Z.max finalStart finalEnd in
  slice s from to.

End JSString.

Module JSArray.

Fixpoint indexOf_from (l : list jsstring) (x : jsstring) (k : Z) : Z :=
  match l with
  | [] => -1
  | y :: l' => if decide (y = x) then k else indexOf_from l' x (k + 1)
  end.

(** [l.indexOf(x)] on an array of strings: the first index holding a
    string strictly equal to [x], or [-1]. *)
Definition indexOf (l : list jsstring) (x : jsstring) : Z :=
  indexOf_from l x 0.

End JSArray.

(** [f != v] for a string [f] and a [v] that is a string or [undefined]
    ([None]): a string is never loosely equal to [undefined]. *)
Definition loose_neq (f : jsstring) (v : option jsstring) : bool :=
  match v with
  | Some s => negb (bool_decide (f = s))
  | None => true
  end.

Module JSON.

Definition is_leading_surrogate (c : code_unit) : bool :=
  (N.leb 0xD800 c && N.leb c 0xDBFF)%N.
Definition is_trailing_surrogate (c : code_unit) : bool :=
  (N.leb 0xDC00 c && N.leb c 0xDFFF)%N.

(** One lower-case hexadecimal digit. *)
Definition hex_digit (d : N) : code_unit :=
  (if d <? 10 then 48 + d else 87 + d)%N.

(** UnicodeEscape: a backslash, [u] and four hexadecimal digits. *)
Definition UnicodeEscape (c : code_unit) : jsstring :=
  [92; 117;
   hex_digit (c / 4096 mod 16); hex_digit (c / 256 mod 16);
   hex_digit (c / 16 mod 16); hex_digit (c mod 16)]%N.

(** The text QuoteJSONString emits for a code unit that is not half of a
    surrogate pair. *)
Definition quote_unit (c : code_unit) : jsstring :=
  (if c =? 8 then str "\b"
   else if c =? 9 then str "\t"
   else if c =? 10 then str "\n"
   else if c =? 12 then str "\f"
   else if c =? 13 then str "\r"
   else if c =? 34 then [92; 34]
   else if c =? 92 then [92; 92]
   else if (c <? 32) || is_leading_surrogate c || is_trailing_surrogate c
        then UnicodeEscape c
   else [c])%N.

(** The body of QuoteJSONString: the code points of the string in order,
    a surrogate pair copied as it is. *)
Fixpoint quote_units (s : jsstring) : jsstring :=
  match s with
  | [] => []
  | c :: rest =>
      match rest with
      | d :: rest' =>
          if is_leading_surrogate c && is_trailing_surrogate d
          then c :: d :: quote_units rest'
          else quote_unit c ++ quote_units rest
      | [] => quote_unit c
      end
  end.

Definition QuoteJSONString (s : jsstring) : jsstring :=
  34%N :: quote_units s ++ [34%N].

Fixpoint join_comma (parts : list jsstring) : jsstring :=
  match parts with
  | [] => []
  | [p] => p
  | p :: parts' => p ++ 44%N :: join_comma parts'
  end.

(** [JSON.stringify(l)] for an array of strings, no replacer and no
    indentation. *)
Definition stringify (l : list jsstring) : jsstring :=
  91%N :: join_comma (List.map QuoteJSONString l) ++ [93%N].

End JSON.

(** ** Completions

    What a call of a JavaScript function ends in: a returned value or a
    thrown error.  The two sources contain no [throw]; the error names are
    those the specification speaks of. *)

Inductive error := InvalidArgument | MalformedInput.

Inductive completion (A : Type) :=
| Normal (v : A)
| Throw (e : error).
Arguments Normal {A} v.
Arguments Throw {A} e.

(** ** webpack.config.cjs: the chunk manifest template *)

(** The part of html-webpack-plugin's template parameter that the template
    reads: [htmlWebpackPlugin.options.chunks], [htmlWebpackPlugin.files.js]
    and [htmlWebpackPlugin.files.css]. *)
Record Options := { chunks : list jsstring }.
Record Files := { js : list jsstring; css : list jsstring }.
Record HtmlWebpackPlugin := { options : Options; files : Files }.

(** [const filenameOf = (pathname) =>
      pathname.substr(pathname.lastIndexOf('/') + 1);] *)
Definition filenameOf (pathname : jsstring) : jsstring :=
  JSString.substr pathname (JSString.lastIndexOf pathname (str "/") + 1).

(** [const chunkName = htmlWebpackPlugin.options.chunks[0];]
    ([undefined], here [None], when the array is empty). *)
Definition chunkName (htmlWebpackPlugin : HtmlWebpackPlugin)
  : option jsstring :=
  chunks (options htmlWebpackPlugin) !! 0%nat.

(** [const omitPrimaryChunk = (f) => f != chunkName;] *)
Definition omitPrimaryChunk (htmlWebpackPlugin : HtmlWebpackPlugin)
  (f : jsstring) : bool :=
  loose_neq f (chunkName htmlWebpackPlugin).

(** The callback mapped over [htmlWebpackPlugin.files.js]. *)
Definition jsName (pathname : jsstring) : jsstring :=
  let f := filenameOf pathname in
  JSString.substring f 0 (JSString.length f - JSString.length (str ".js")).

(** The callback mapped over [htmlWebpackPlugin.files.css]. *)
Definition cssName (pathname : jsstring) : jsstring :=
  let f := filenameOf pathname in
  JSString.substring f 0 (JSString.length f - JSString.length (str ".css")).

(** [const js = htmlWebpackPlugin.files.js.map(...).filter(omitPrimaryChunk);] *)
Definition jsChunks (htmlWebpackPlugin : HtmlWebpackPlugin) : list jsstring :=
  List.filter (omitPrimaryChunk htmlWebpackPlugin)
    (List.map jsName (js (files htmlWebpackPlugin))).

(** [const css = htmlWebpackPlugin.files.css.map(...).filter(omitPrimaryChunk);] *)
Definition cssChunks (htmlWebpackPlugin : HtmlWebpackPlugin) : list jsstring :=
  List.filter (omitPrimaryChunk htmlWebpackPlugin)
    (List.map cssName (css (files htmlWebpackPlugin))).

Definition LF : jsstring := [10%N].

(** The template literal of the [return] statement, with the two
    interpolated texts as arguments. *)
Definition phpManifest (cssJson jsJson : jsstring) : jsstring :=
  str "<?php return array(" ++ LF ++
  str "    'css' => " ++ cssJson ++ str "," ++ LF ++
  str "    'js' => " ++ jsJson ++ str ");".

(** [const templateContent = ({ htmlWebpackPlugin }) => { ... }] *)
Definition templateContent (htmlWebpackPlugin : HtmlWebpackPlugin)
  : completion jsstring :=
  let js := jsChunks htmlWebpackPlugin in
  let css := cssChunks htmlWebpackPlugin in
  Normal (phpManifest (JSON.stringify css) (JSON.stringify js)).

(** The specification's [buildManifest(entryChunkName, scriptFiles,
    styleFiles)]: the template called as html-webpack-plugin calls it for
    an instance configured with [chunks: [entryChunkName]];
    [buildInput] is the parameter of that call. *)
Definition buildInput (entryChunkName : jsstring)
  (scriptFiles styleFiles : list jsstring) : HtmlWebpackPlugin :=
  {| options := {| chunks := [entryChunkName] |};
     files := {| js := scriptFiles; css := styleFiles |} |}.

Definition buildManifest (entryChunkName : jsstring)
  (scriptFiles styleFiles : list jsstring) : completion jsstring :=
  templateContent (buildInput entryChunkName scriptFiles styleFiles).

(** The double quote that opens and closes a JSON string. *)
Definition DQ : jsstring := [34%N].

(** ** formLabel.js: the label of a publish-modal field *)

(** A value interpolated into a styled-components template: literal CSS
    text, or a function of the theme that reads the property at [path]. *)
Inductive css_value :=
| Literal (text : jsstring)
| FromTheme (path : list jsstring).

Record css_declaration := { property : jsstring; value : css_value }.

(** Component types: the design system's [Headline], and [styled(base)]
    given the declarations of a [&:after] rule. *)
Inductive component :=
| Headline
| styled (base : component) (after : list css_declaration).

(** [const RequiredHeadline = styled(Headline)`&:after { content: '*';
      color: ${({ theme }) => theme.colors.fg.tertiary};
      padding-left: 0.25em; }`;] *)
Definition RequiredHeadline : component :=
  styled Headline
    [ {| property := str "content"; value := Literal (str "'*'") |};
      {| property := str "color";
         value := FromTheme [str "colors"; str "fg"; str "tertiary"] |};
      {| property := str "padding-left"; value := Literal (str "0.25em") |} ].

(** [FormLabel]'s props. *)
Record Props := { htmlFor : jsstring; copy : jsstring }.

Section PublishModal.

(** [REQUIRED_INPUTS] of [../constants]. *)
Variable REQUIRED_INPUTS : list jsstring.

(** [__] of [@googleforcreators/i18n]: text and text domain to the
    localized text. *)
Variable __ : jsstring -> jsstring -> jsstring.

(** [PLACEMENT.BOTTOM_START] and
    [THEME_CONSTANTS.TYPOGRAPHY.PRESET_SIZES.XX_SMALL] of
    [@googleforcreators/design-system]. *)
Variables (placement preset_size : Type).
Variable PLACEMENT_BOTTOM_START : placement.
Variable PRESET_SIZES_XX_SMALL : preset_size.

(** The React elements [FormLabel] builds: a headline-like component with
    the props [as], [size], [htmlFor] and its text child, or a [Tooltip]
    (of [../../tooltip]) with the props [title], [placement] and its
    child element. *)
Inductive element :=
| Element (type : component) (as_ : jsstring) (size : preset_size)
          (for_ : jsstring) (children : jsstring)
| Tooltip (title : jsstring) (place : placement) (child : element).

(** [const FormLabel = ({ htmlFor, copy }) => { return ... ? ... : ...; }] *)
Definition FormLabel (props : Props) : completion element :=
  let htmlFor := htmlFor props in
  let copy := copy props in
  Normal
    (if JSArray.indexOf REQUIRED_INPUTS htmlFor >? -1 then
       Tooltip (__ (str "Required") (str "web-stories"))
         PLACEMENT_BOTTOM_START
         (Element RequiredHeadline (str "label") PRESET_SIZES_XX_SMALL
            htmlFor copy)
     else
       Element Headline (str "label") PRESET_SIZES_XX_SMALL htmlFor copy).

(** *** What a rendered tree shows *)

(** The headline element of a tree: the tree itself, or the element a
    tooltip wraps. *)
Fixpoint label_of (e : element) : element :=
  match e with
  | Element _ _ _ _ _ => e
  | Tooltip _ _ child => label_of child
  end.

(** The tooltips of a tree, outermost first, as title and placement. *)
Fixpoint tooltips (e : element) : list (jsstring * placement) :=
  match e with
  | Element _ _ _ _ _ => []
  | Tooltip title place child => (title, place) :: tooltips child
  end.

(** The [content] texts a component type puts after its element. *)
Fixpoint after_contents (c : component) : list css_value :=
  match c with
  | Headline => []
  | styled base after =>
      after_contents base ++
      List.map value
        (List.filter (fun d => bool_decide (property d = str "content"))
           after)
  end.

(** The marker glyphs of a tree: the [content] values of the component
    types of its headline elements. *)
Fixpoint markers (e : element) : list css_value :=
  match e with
  | Element type _ _ _ _ => after_contents type
  | Tooltip _ _ child => markers child
  end.

End PublishModal.

Arguments Element {placement preset_size}.
Arguments Tooltip {placement preset_size}.
Arguments label_of {placement preset_size}.
Arguments tooltips {placement preset_size}.
Arguments markers {placement preset_size}.
Arguments FormLabel REQUIRED_INPUTS __ {placement preset_size}.

(** ** The two functions over a store of arrays

    JavaScript arrays are objects with identity: [htmlWebpackPlugin.files.js]
    and [REQUIRED_INPUTS] are references, and a callee could write through
    them.  Here the arrays live in a store, the functions receive
    references, every array method is written with what it reads, writes
    and allocates, and the call of the imported [__] is a computation over
    the store.  Strings are values, not objects: the callbacks given to
    [map] and [filter] compute on strings alone. *)

Module Heap.

Abbreviation loc := positive (only parsing).
Abbreviation store := (gmap positive (list (list N))) (only parsing).

(** A computation over the store; [None] is a read through a reference
    that names no array. *)
Definition M (A : Type) : Type := store -> option (A * store).

Definition ret {A} (a : A) : M A := fun s => Some (a, s).

Definition bind {A B} (m : M A) (k : A -> M B) : M B :=
  fun s => match m s with
           | Some (a, s') => k a s'
           | None => None
           end.

Notation "x <- m ;; k" := (bind m (fun x => k))
  (at level 100, m at next level, right associativity).

Definition read (a : loc) : M (list jsstring) :=
  fun s => match s !! a with
           | Some l => Some (l, s)
           | None => None
           end.

(** A new array, at a reference not in use. *)
Definition alloc (l : list jsstring) : M loc :=
  fun s => let r := fresh (dom s) in Some (r, <[r := l]> s).

(** [a.map(f)] and [a.filter(p)] read [a] and return a new array. *)
Definition Array_map (f : jsstring -> jsstring) (a : loc) : M loc :=
  l <- read a ;; alloc (List.map f l).

Definition Array_filter (p : jsstring -> bool) (a : loc) : M loc :=
  l <- read a ;; alloc (List.filter p l).

(** [a[i]] *)
Definition Array_get (a : loc) (i : nat) : M (option jsstring) :=
  l <- read a ;; ret (l !! i).

(** [a.indexOf(x)] *)
Definition Array_indexOf (a : loc) (x : jsstring) : M Z :=
  l <- read a ;; ret (JSArray.indexOf l x).

(** [JSON.stringify(a)] *)
Definition JSON_stringify (a : loc) : M jsstring :=
  l <- read a ;; ret (JSON.stringify l).

(** Arrays can be written through their reference, which neither of the
    two functions does: [a.push(x)] puts [x] at the end of [a] itself and
    returns the new length. *)
Definition write (a : loc) (l : list jsstring) : M unit :=
  fun s => match s !! a with
           | Some _ => Some (tt, <[a := l]> s)
           | None => None
           end.

Definition Array_push (a : loc) (x : jsstring) : M Z :=
  l <- read a ;; u <- write a (l ++ [x]) ;;
  ret (Z.of_nat (List.length (l ++ [x]))).

(** The template parameter, its three arrays as references. *)
Record OptionsRef := { chunks_ref : loc }.
Record FilesRef := { js_ref : loc; css_ref : loc }.
Record HtmlWebpackPluginRef :=
  { options_ref : OptionsRef; files_ref : FilesRef }.

Definition templateContent (htmlWebpackPlugin : HtmlWebpackPluginRef)
  : M (completion jsstring) :=
  chunkName <- Array_get (chunks_ref (options_ref htmlWebpackPlugin)) 0 ;;
  let omitPrimaryChunk := fun f => loose_neq f chunkName in
  jsNames <- Array_map jsName (js_ref (files_ref htmlWebpackPlugin)) ;;
  js <- Array_filter omitPrimaryChunk jsNames ;;
  cssNames <- Array_map cssName (css_ref (files_ref htmlWebpackPlugin)) ;;
  css <- Array_filter omitPrimaryChunk cssNames ;;
  cssJson <- JSON_stringify css ;;
  jsJson <- JSON_stringify js ;;
  ret (Normal (phpManifest cssJson jsJson)).

Section PublishModal.

Variable REQUIRED_INPUTS : loc.

(** [__] is a call out of the module: a computation over the store, which
    may read it (the locale data) and, as far as its type goes, write
    it. *)
Variable __ : jsstring -> jsstring -> M jsstring.
Variables (placement preset_size : Type).
Variable PLACEMENT_BOTTOM_START : placement.
Variable PRESET_SIZES_XX_SMALL : preset_size.

(** The condition is evaluated first; [__] is called in the branch of a
    required field only. *)
Definition FormLabel (props : Props)
  : M (completion (element placement preset_size)) :=
  let htmlFor := htmlFor props in
  let copy := copy props in
  i <- Array_indexOf REQUIRED_INPUTS htmlFor ;;
  if i >? -1 then
    title <- __ (str "Required") (str "web-stories") ;;
    ret (Normal
           (Tooltip title PLACEMENT_BOTTOM_START
              (Element RequiredHeadline (str "label")
                 PRESET_SIZES_XX_SMALL htmlFor copy)))
  else
    ret (Normal
           (Element Headline (str "label") PRESET_SIZES_XX_SMALL
              htmlFor copy)).

End PublishModal.

Arguments FormLabel REQUIRED_INPUTS __ {placement preset_size}.


End Heap.

(** ** webpack.config.cjs: the exported configurations

    The configuration objects are data: they are embedded as trees of
    JavaScript values.  Calls into Node and the class instances built with
    [new] are kept as they are written; regular expressions are kept as
    source and flags. *)

Local Unset Elimination Schemes.
Inductive jsval :=
| VUndefined
| VBool (b : bool)
| VString (s : jsstring)
| VRegExp (source flags : jsstring)
| VArray (items : list jsval)
| VObject (props : list (jsstring * jsval))
| VNew (ctor : jsstring) (args : list jsval)
| VRef (name : jsstring)
| VCall (callee : jsstring) (args : list jsval).
Local Set Elimination Schemes.

Definition vstr (s : string) : jsval := VString (str s).
Definition regexp (source flags : string) : jsval :=
  VRegExp (str source) (str flags).
Definition prop (key : string) (v : jsval) : jsstring * jsval := (str key, v).

(** ToBoolean: [undefined], [false] and the empty string are falsy;
    objects, arrays, regular expressions and functions are truthy, and so
    are the paths the calls into Node return. *)
Definition ToBoolean (v : jsval) : bool :=
  match v with
  | VUndefined => false
  | VBool b => b
  | VString [] => false
  | _ => true
  end.

(** [a || b] and [a && b] *)
Definition js_or (a b : jsval) : jsval := if ToBoolean a then a else b.
Definition js_and (a b : jsval) : jsval := if ToBoolean a then b else a.

(** [v === 'text'] *)
Definition strict_eq_string (v : jsval) (s : jsstring) : bool :=
  match v with
  | VString t => bool_decide (t = s)
  | _ => false
  end.

(** [[...].filter(Boolean)] *)
Definition filter_Boolean (items : list jsval) : jsval :=
  VArray (List.filter ToBoolean items).

(** [...array] inside an array literal. *)
Definition items_of (v : jsval) : list jsval :=
  match v with
  | VArray items => items
  | _ => []
  end.

(** [...object] inside an object literal. *)
Definition props_of (v : jsval) : list (jsstring * jsval) :=
  match v with
  | VObject props => props
  | _ => []
  end.

(** [object.key], [undefined] when the object has no such property. *)
Fixpoint lookup_prop (props : list (jsstring * jsval)) (key : jsstring)
  : jsval :=
  match props with
  | [] => VUndefined
  | (k, v) :: props' =>
      if decide (k = key) then v else lookup_prop props' key
  end.

Definition get (v : jsval) (key : string) : jsval :=
  lookup_prop (props_of v) (str key).

(** A property definition of an object literal after a spread: the
    value of an existing key is replaced in place, a new key is added at
    the end. *)
Fixpoint assign (props : list (jsstring * jsval)) (key : jsstring)
  (v : jsval) : list (jsstring * jsval) :=
  match props with
  | [] => [(key, v)]
  | (k, w) :: props' =>
      if decide (k = key) then (key, v) :: props'
      else (k, w) :: assign props' key v
  end.

(** [{ ...base, key1: v1, key2: v2, ... }] *)
Definition spread_with (base : jsval) (defs : list (jsstring * jsval))
  : jsval :=
  VObject (fold_left (fun props d => assign props (fst d) (snd d)) defs
             (props_of base)).

(** [packages.includes(request)] *)
Fixpoint includes (l : list jsstring) (x : jsstring) : bool :=
  match l with
  | [] => false
  | y :: l' => if decide (y = x) then true else includes l' x
  end.

(** [function requestToExternal(request)] *)
Definition requestToExternal (request : jsstring) : jsval :=
  let packages := [str "react"; str "react-dom"; str "react-dom/server"] in
  if includes packages request then VBool false else VUndefined.

(** The variables of [process.env] the module reads, as they are when
    the module is loaded: a string, or [None] for one that is not set. *)
Record ProcessEnv := {
  NODE_ENV : option jsstring;
  BUNDLE_ANALYZER : option jsstring;
  BABEL_CACHE_DIRECTORY : option jsstring
}.

Definition env_value (o : option jsstring) : jsval :=
  match o with
  | Some s => VString s
  | None => VUndefined
  end.

(** [process.env.NODE_ENV = process.env.NODE_ENV || 'development';]
    the value [process.env.NODE_ENV] has from then on. *)
Definition NODE_ENV_assigned (env : ProcessEnv) : jsval :=
  js_or (env_value (NODE_ENV env)) (vstr "development").

(** [const isProduction = process.env.NODE_ENV === 'production';] *)
Definition isProduction (env : ProcessEnv) : bool :=
  strict_eq_string (NODE_ENV_assigned env) (str "production").

(** [const mode = isProduction ? 'production' : 'development';] *)
Definition mode (env : ProcessEnv) : jsval :=
  if isProduction env then vstr "production" else vstr "development".

(** The two [@svgr/webpack] loader entries differ in [currentColor] only. *)
Definition svgr_loader (currentColor : jsval) : jsval :=
  VObject
    [ prop "loader" (vstr "@svgr/webpack");
      prop "options"
        (VObject
           [ prop "titleProp" (VBool true);
             prop "svgo" (VBool true);
             prop "svgoConfig"
               (VObject
                  [ prop "plugins"
                      (VArray
                         [ VObject
                             [ prop "removeViewBox" (VBool false);
                               prop "removeDimensions" (VBool true);
                               prop "convertColors"
                                 (VObject
                                    [ prop "currentColor" currentColor ])
                             ] ]) ]) ]) ].

(** [sharedConfig.module.rules], before [.filter(Boolean)]. *)
Definition rules_literal (env : ProcessEnv) : list jsval :=
  [ js_and (VBool (negb (isProduction env)))
      (VObject
         [ prop "test" (regexp "\.js$" "");
           prop "use" (VArray [vstr "source-map-loader"]);
           prop "enforce" (vstr "pre") ]);
    VObject
      [ prop "test" (regexp "\.js$" "");
        prop "exclude" (regexp "node_modules" "");
        prop "use"
          (VArray
             [ VCall (str "require.resolve") [vstr "thread-loader"];
               VObject
                 [ prop "loader"
                     (VCall (str "require.resolve") [vstr "babel-loader"]);
                   prop "options"
                     (VObject
                        [ prop "cacheDirectory"
                            (js_or (env_value (BABEL_CACHE_DIRECTORY env))
                               (VBool true)) ]) ] ]) ];
    VObject
      [ prop "test" (regexp "\.svg$" "");
        prop "use"
          (VArray
             [ svgr_loader (regexp "^(?!url|none)" "i"); vstr "url-loader" ]);
        prop "exclude" (VArray [regexp "images\/.*\.svg$" ""]) ];
    VObject
      [ prop "test" (regexp "\.svg$" "");
        prop "use"
          (VArray [ svgr_loader (VBool false); vstr "url-loader" ]);
        prop "include" (VArray [regexp "images\/.*\.svg$" ""]) ];
    VObject
      [ prop "test" (regexp "\.css$" "");
        prop "use"
          (VArray [VRef (str "MiniCssExtractPlugin.loader");
                   vstr "css-loader"]);
        prop "sideEffects" (VBool true) ] ].

(** [sharedConfig.plugins], before [.filter(Boolean)]. *)
Definition shared_plugins_literal (env : ProcessEnv) : list jsval :=
  [ js_and (env_value (BUNDLE_ANALYZER env))
      (VNew (str "BundleAnalyzerPlugin") []);
    VNew (str "DependencyExtractionWebpackPlugin")
      [ VObject [ prop "requestToExternal" (VRef (str "requestToExternal")) ] ];
    VNew (str "MiniCssExtractPlugin")
      [ VObject [ prop "filename" (vstr "../css/[name].css") ] ];
    VNew (str "webpack.EnvironmentPlugin")
      [ VObject [ prop "DISABLE_PREVENT" (VBool false);
                  prop "DISABLE_ERROR_BOUNDARIES" (VBool false) ] ] ].

(** [const sharedConfig = { ... };] *)
Definition sharedConfig (env : ProcessEnv) : jsval :=
  VObject
    [ prop "mode" (mode env);
      prop "devtool"
        (if negb (isProduction env) then vstr "source-map" else VUndefined);
      prop "output"
        (VObject
           [ prop "path"
               (VCall (str "path.resolve")
                  [ VCall (str "process.cwd") []; vstr "assets"; vstr "js" ]);
             prop "filename" (vstr "[name].js");
             prop "chunkFilename" (vstr "[name]-[chunkhash].js");
             prop "publicPath" (vstr "");
             prop "jsonpFunction" (vstr "__webStories_webpackJsonp") ]);
      prop "module"
        (VObject [ prop "rules" (filter_Boolean (rules_literal env)) ]);
      prop "plugins" (filter_Boolean (shared_plugins_literal env));
      prop "optimization"
        (VObject
           [ prop "sideEffects" (VBool true);
             prop "minimizer"
               (VArray
                  [ VNew (str "TerserPlugin")
                      [ VObject
                          [ prop "parallel" (VBool true);
                            prop "sourceMap" (VBool false);
                            prop "cache" (VBool true);
                            prop "terserOptions"
                              (VObject
                                 [ prop "keep_fnames"
                                     (regexp
                                        "__|_x|_n|_nx|sprintf|^[A-Z].+$" "");
                                   prop "output"
                                     (VObject
                                        [ prop "comments"
                                            (regexp "translators:" "i") ]) ]);
                            prop "extractComments" (VBool false) ] ];
                    VNew (str "OptimizeCSSAssetsPlugin") [ VObject [] ] ]) ]) ].

(** [new HtmlWebpackPlugin({ filename, inject: false, minify: false,
      templateContent, chunks })] *)
Definition manifest_plugin (filename chunk : string) : jsval :=
  VNew (str "HtmlWebpackPlugin")
    [ VObject
        [ prop "filename" (vstr filename);
          prop "inject" (VBool false);
          prop "minify" (VBool false);
          prop "templateContent" (VRef (str "templateContent"));
          prop "chunks" (VArray [vstr chunk]) ] ].

(** [const editorAndDashboard = { ...sharedConfig, entry, plugins,
      optimization };] *)
Definition editorAndDashboard (env : ProcessEnv) : jsval :=
  spread_with (sharedConfig env)
    [ prop "entry"
        (VObject
           [ prop "edit-story" (vstr "./assets/src/edit-story/index.js");
             prop "stories-dashboard" (vstr "./assets/src/dashboard/index.js")
           ]);
      prop "plugins"
        (VArray
           (items_of (get (sharedConfig env) "plugins") ++
            [ VNew (str "WebpackBar")
                [ VObject [ prop "name" (vstr "Editor & Dashboard") ] ];
              manifest_plugin "edit-story.chunks.php" "edit-story";
              manifest_plugin "stories-dashboard.chunks.php"
                "stories-dashboard" ]));
      prop "optimization"
        (spread_with (get (sharedConfig env) "optimization")
           [ prop "splitChunks" (VObject [ prop "chunks" (vstr "all") ]) ]) ].

(** The [splitChunks] of the two single-stylesheet builds. *)
Definition css_cache_group (name : string) : jsval :=
  VObject
    [ prop "cacheGroups"
        (VObject
           [ prop "stories"
               (VObject
                  [ prop "name" (vstr name);
                    prop "test" (regexp "\.css$" "");
                    prop "chunks" (vstr "all");
                    prop "enforce" (VBool true) ]) ]) ].

(** [const storyEmbedBlock = { ...sharedConfig, entry, plugins,
      optimization };] *)
Definition storyEmbedBlock (env : ProcessEnv) : jsval :=
  spread_with (sharedConfig env)
    [ prop "entry"
        (VObject
           [ prop "web-stories-embed-block"
               (vstr "./assets/src/story-embed-block/index.js") ]);
      prop "plugins"
        (filter_Boolean
           [ js_and (env_value (BUNDLE_ANALYZER env))
               (VNew (str "BundleAnalyzerPlugin") []);
             VNew (str "DependencyExtractionWebpackPlugin")
               [ VObject [ prop "injectPolyfill" (VBool true) ] ];
             VNew (str "MiniCssExtractPlugin")
               [ VObject [ prop "filename" (vstr "../css/[name].css") ] ];
             VNew (str "WebpackBar")
               [ VObject [ prop "name" (vstr "Web Stories Block");
                           prop "color" (vstr "#357BB5") ] ] ]);
      prop "optimization"
        (spread_with (get (sharedConfig env) "optimization")
           [ prop "splitChunks" (css_cache_group "web-stories-embed-block") ])
    ].

(** [const activationNotice = { ...sharedConfig, entry, plugins,
      optimization };] *)
Definition activationNotice (env : ProcessEnv) : jsval :=
  spread_with (sharedConfig env)
    [ prop "entry"
        (VObject
           [ prop "web-stories-activation-notice"
               (vstr "./packages/activation-notice/src/index.js") ]);
      prop "plugins"
        (VArray
           (items_of (get (sharedConfig env) "plugins") ++
            [ VNew (str "WebpackBar")
                [ VObject [ prop "name" (vstr "Activation Notice");
                            prop "color" (vstr "#fcd8ba") ] ] ]));
      prop "optimization"
        (spread_with (get (sharedConfig env) "optimization")
           [ prop "splitChunks" (css_cache_group "activation-notice") ]) ].

(** [module.exports = [editorAndDashboard, storyEmbedBlock,
      activationNotice];] *)
Definition module_exports (env : ProcessEnv) : list jsval :=
  [editorAndDashboard env; storyEmbedBlock env; activationNotice env].

(** [config.plugins] and [config.module.rules] as lists. *)
Definition plugins_of (config : jsval) : list jsval :=
  items_of (get config "plugins").

Definition rules_of (config : jsval) : list jsval :=
  items_of (get (get config "module") "rules").

(** Is the [test] of a rule the regular expression with this source? *)
Definition rule_test_is (source : string) (rule : jsval) : bool :=
  match get rule "test" with
  | VRegExp s _ => bool_decide (s = str source)
  | _ => false
  end.

(** [rule.use[0].options.svgoConfig.plugins[0].convertColors.currentColor] *)
Definition currentColor_of (rule : jsval) : jsval :=
  match items_of (get rule "use") with
  | loader :: _ =>
      match items_of (get (get (get loader "options") "svgoConfig")
                        "plugins") with
      | plugin :: _ => get (get plugin "convertColors") "currentColor"
      | [] => VUndefined
      end
  | [] => VUndefined
  end.

(** [rule.use[1].options.cacheDirectory] *)
Definition cacheDirectory_of (rule : jsval) : jsval :=
  match items_of (get rule "use") with
  | _ :: loader :: _ => get (get loader "options") "cacheDirectory"
  | _ => VUndefined
  end.

(** The [chunks] options of the [HtmlWebpackPlugin] instances among the
    plugins of a configuration. *)
Definition manifest_chunks (config : jsval) : list jsval :=
  flat_map
    (fun plugin =>
       match plugin with
       | VNew ctor [options] =>
           if decide (ctor = str "HtmlWebpackPlugin")
           then [get options "chunks"] else []
       | _ => []
       end)
    (plugins_of config).

(** ** How webpack selects the rules of a resource

    A rule applies to a resource when the resource matches the rule's
    [test], matches its [include] if it has one, and does not match its
    [exclude] if it has one; an array of conditions matches when one of
    them does.  The matching of a regular expression is a parameter. *)

Section RuleMatching.

Variable regexp_test : jsstring -> jsstring -> jsstring -> bool.

Definition matches_regexp (condition : jsval) (resource : jsstring) : bool :=
  match condition with
  | VRegExp source flags => regexp_test source flags resource
  | _ => false
  end.

Definition matches_condition (condition : jsval) (resource : jsstring)
  : bool :=
  match condition with
  | VArray items => existsb (fun c => matches_regexp c resource) items
  | _ => matches_regexp condition resource
  end.

Definition rule_applies (rule : jsval) (resource : jsstring) : bool :=
  matches_condition (get rule "test") resource
  && match get rule "include" with
     | VUndefined => true
     | condition => matches_condition condition resource
     end
  && match get rule "exclude" with
     | VUndefined => true
     | condition => negb (matches_condition condition resource)
     end.

End RuleMatching.

(** ** Reading a quoted string back

    The reader of the text [JSON.QuoteJSONString] writes, up to and with
    the closing quote: the string read and the text left over. *)

Definition unhex (c : code_unit) : N :=
  (if c <? 58 then c - 48 else c - 87)%N.

Definition unescape (c : code_unit) : code_unit :=
  (if c =? 98 then 8
   else if c =? 116 then 9
   else if c =? 110 then 10
   else if c =? 102 then 12
   else if c =? 114 then 13
   else c)%N.

Fixpoint unquote_units (t : jsstring) : option (jsstring * jsstring) :=
  match t with
  | [] => None
  | c :: t1 =>
      if (c =? 34)%N then Some ([], t1)
      else if (c =? 92)%N then
        match t1 with
        | [] => None
        | e :: t2 =>
            if (e =? 117)%N then
              match t2 with
              | h3 :: h2 :: h1 :: h0 :: t3 =>
                  match unquote_units t3 with
                  | Some (s, rest) =>
                      Some ((4096 * unhex h3 + 256 * unhex h2
                             + 16 * unhex h1 + unhex h0)%N :: s, rest)
                  | None => None
                  end
              | _ => None
              end
            else
              match unquote_units t2 with
              | Some (s, rest) => Some (unescape e :: s, rest)
              | None => None
              end
        end
      else
        match unquote_units t1 with
        | Some (s, rest) => Some (c :: s, rest)
        | None => None
        end
  end.

(** ** Sample inputs *)

(** Sample values for the imports of [formLabel.js], used to run the
    theorems on concrete input. *)
Definition sample_REQUIRED_INPUTS : list jsstring :=
  [str "excerpt"; str "title"].
Definition sample_translate (text domain : jsstring) : jsstring := text.
Definition sample_BOTTOM_START : jsstring := str "bottom-start".
Definition sample_XX_SMALL : jsstring := str "xx-small".






(** * Properties *)

(** ** Strings *)

Section StringFacts.

Implicit Types (s p dir base search : jsstring) (k acc : Z).

Lemma length_nonneg s : 0 <= JSString.length s.
Proof. unfold JSString.length. lia. Qed.

Lemma length_app s p :
  JSString.length (s ++ p) = JSString.length s + JSString.length p.
Proof. unfold JSString.length. rewrite List.length_app. lia. Qed.

Lemma slice_to_end s from :
  0 <= from <= JSString.length s ->
  JSString.slice s from (JSString.length s) = drop (Z.to_nat from) s.
Proof.
  intros Hfrom. unfold JSString.slice, JSString.length in *.
  apply take_ge. rewrite length_drop. lia.
Qed.

Lemma slice_from_start s to :
  JSString.slice s 0 to = take (Z.to_nat to) s.
Proof.
  unfold JSString.slice. by rewrite Z.sub_0_r, drop_0.
Qed.

(** [substr] with a start inside the string drops that many units. *)
Lemma substr_drop s start :
  0 <= start <= JSString.length s ->
  JSString.substr s start = drop (Z.to_nat start) s.
Proof.
  intros Hstart. unfold JSString.substr.
  destruct (Z.ltb_spec start 0) as [|_]; [lia|].
  pose proof (length_nonneg s).
  rewrite (Z.min_l start) by lia.
  rewrite (Z.min_r (start + _)) by lia.
  by apply slice_to_end.
Qed.

(** [substring] from 0 keeps a prefix; a negative end keeps nothing. *)
Lemma substring_take s (n : nat) :
  JSString.substring s 0 (JSString.length s - Z.of_nat n)
  = take (List.length s - n) s.
Proof.
  unfold JSString.substring. pose proof (length_nonneg s) as Hlen.
  rewrite (Z.max_l 0 0), (Z.min_l 0) by lia.
  set (e := Z.min (Z.max _ 0) _).
  assert (He : e = Z.of_nat (List.length s - n)).
  { unfold e, JSString.length in *. lia. }
  rewrite He, (Z.min_l 0), (Z.max_r 0) by lia.
  by rewrite slice_from_start, Nat2Z.id.
Qed.

Lemma starts_with_slash s :
  JSString.starts_with (str "/") s
  = match s with c :: _ => N.eqb 47 c | [] => false end.
Proof. destruct s as [|c s]; [done|]. cbn. by rewrite andb_true_r. Qed.

Lemma lastIndexOf_from_absent s k acc :
  47%N ∉ s -> JSString.lastIndexOf_from (str "/") s k acc = acc.
Proof.
  revert k acc. induction s as [|c s IH]; intros k acc Hs.
  - done.
  - cbn [JSString.lastIndexOf_from]. rewrite starts_with_slash.
    apply not_elem_of_cons in Hs as [Hc Hs].
    destruct (N.eqb_spec 47 c) as [<-|_]; [done|]. by apply IH.
Qed.

Lemma lastIndexOf_from_last dir base k acc :
  47%N ∉ base ->
  JSString.lastIndexOf_from (str "/") (dir ++ 47%N :: base) k acc
  = k + JSString.length dir.
Proof.
  intros Hbase. revert k acc.
  induction dir as [|c dir IH]; intros k acc.
  - cbn [app JSString.lastIndexOf_from]. rewrite starts_with_slash.
    rewrite N.eqb_refl, lastIndexOf_from_absent by done.
    unfold JSString.length. rewrite length_nil. lia.
  - cbn [app JSString.lastIndexOf_from]. rewrite IH.
    unfold JSString.length. rewrite length_cons. lia.
Qed.

(** Every string splits at its last slash, if it has one. *)
Lemma split_last_slash p :
  47%N ∉ p \/ exists dir base, p = dir ++ 47%N :: base /\ 47%N ∉ base.
Proof.
  induction p as [|c p IH].
  - left. apply not_elem_of_nil.
  - destruct IH as [Hp|(dir & base & -> & Hbase)].
    + destruct (decide (c = 47%N)) as [->|Hc].
      * right. by exists [], p.
      * left. by apply not_elem_of_cons.
    + right. by exists (c :: dir), base.
Qed.

Lemma filenameOf_no_slash p : 47%N ∉ p -> filenameOf p = p.
Proof.
  intros Hp. unfold filenameOf, JSString.lastIndexOf.
  rewrite lastIndexOf_from_absent by done.
  rewrite substr_drop; [done|]. pose proof (length_nonneg p). lia.
Qed.

Lemma filenameOf_after_last_slash dir base :
  47%N ∉ base -> filenameOf (dir ++ 47%N :: base) = base.
Proof.
  intros Hbase. unfold filenameOf, JSString.lastIndexOf.
  rewrite lastIndexOf_from_last by done.
  pose proof (length_nonneg dir). pose proof (length_nonneg base).
  rewrite substr_drop.
  - replace (Z.to_nat (0 + JSString.length dir + 1))
      with (List.length (dir ++ [47%N])).
    + by rewrite (cons_middle 47%N dir base), app_assoc, drop_app_length.
    + unfold JSString.length.
      rewrite List.length_app, length_cons, length_nil. lia.
  - rewrite length_app. unfold JSString.length in *.
    rewrite length_cons. lia.
Qed.

Lemma filenameOf_slash_free p : 47%N ∉ filenameOf p.
Proof.
  destruct (split_last_slash p) as [Hp|(dir & base & -> & Hbase)].
  - by rewrite filenameOf_no_slash.
  - by rewrite filenameOf_after_last_slash.
Qed.

Lemma jsName_take p :
  jsName p = take (List.length (filenameOf p) - 3) (filenameOf p).
Proof. unfold jsName. cbn zeta. apply (substring_take _ 3). Qed.

Lemma cssName_take p :
  cssName p = take (List.length (filenameOf p) - 4) (filenameOf p).
Proof. unfold cssName. cbn zeta. apply (substring_take _ 4). Qed.

End StringFacts.

(** ** The chunk manifest *)

Section ManifestFacts.

Implicit Types (entry name path : jsstring).
Implicit Types (scripts styles names : list jsstring).

Lemma loose_neq_Some name entry :
  loose_neq name (Some entry) = true <-> name ≠ entry.
Proof.
  unfold loose_neq. rewrite negb_true_iff, bool_decide_eq_false. done.
Qed.

Lemma omitPrimaryChunk_buildInput entry scripts styles name :
  omitPrimaryChunk (buildInput entry scripts styles) name = true
  <-> name ≠ entry.
Proof. apply loose_neq_Some. Qed.

Lemma elem_of_List_filter (p : jsstring -> bool) names name :
  name ∈ List.filter p names <-> name ∈ names /\ p name = true.
Proof. rewrite !list_elem_of_In. apply filter_In. Qed.

Lemma elem_of_List_map (f : jsstring -> jsstring) names name :
  name ∈ List.map f names <-> exists path, name = f path /\ path ∈ names.
Proof. apply (list_elem_of_fmap f names name). Qed.

Lemma List_filter_sublist (p : jsstring -> bool) names :
  List.filter p names `sublist_of` names.
Proof.
  induction names as [|name names IH]; cbn.
  - constructor.
  - destruct (p name); by constructor.
Qed.

Lemma jsChunks_buildInput entry scripts styles :
  jsChunks (buildInput entry scripts styles)
  = List.filter (fun f => loose_neq f (Some entry))
      (List.map jsName scripts).
Proof. reflexivity. Qed.

Lemma cssChunks_buildInput entry scripts styles :
  cssChunks (buildInput entry scripts styles)
  = List.filter (fun f => loose_neq f (Some entry))
      (List.map cssName styles).
Proof. reflexivity. Qed.

Lemma elem_of_jsChunks entry scripts styles name :
  name ∈ jsChunks (buildInput entry scripts styles)
  <-> name ∈ List.map jsName scripts /\ name ≠ entry.
Proof.
  rewrite jsChunks_buildInput, elem_of_List_filter.
  by rewrite loose_neq_Some.
Qed.

Lemma elem_of_cssChunks entry scripts styles name :
  name ∈ cssChunks (buildInput entry scripts styles)
  <-> name ∈ List.map cssName styles /\ name ≠ entry.
Proof.
  rewrite cssChunks_buildInput, elem_of_List_filter.
  by rewrite loose_neq_Some.
Qed.

Lemma filter_one (p : jsstring -> bool) name :
  List.filter p [name] = if p name then [name] else [].
Proof. reflexivity. Qed.

Lemma loose_neq_decide name entry :
  loose_neq name (Some entry)
  = if decide (name = entry) then false else true.
Proof.
  unfold loose_neq. destruct (decide (name = entry)) as [H|H].
  - by rewrite bool_decide_eq_true_2.
  - by rewrite bool_decide_eq_false_2.
Qed.

End ManifestFacts.

(** The manifest text for given chunk names, as [templateContent]
    assembles it. *)
Lemma buildManifest_unfold entry scripts styles :
  buildManifest entry scripts styles
  = Normal
      (phpManifest
         (JSON.stringify (cssChunks (buildInput entry scripts styles)))
         (JSON.stringify (jsChunks (buildInput entry scripts styles)))).
Proof. reflexivity. Qed.

(** C2: buildManifest discards every bare chunk name equal to the entry
    chunk name from both derived lists, and nothing else: a name is listed
    exactly when it is the bare name of one of the files and differs from
    the entry name, so the entry name is in neither list.  For
    [buildManifest("main", ["js/main.js","js/vendor.js"], ["css/main.css"])]
    the script list is [["vendor"]] and the stylesheet list is empty, and
    the manifest returned lists exactly those. *)
Theorem buildManifest_omits_entry entry scripts styles :
  buildManifest entry scripts styles
  = Normal
      (phpManifest
         (JSON.stringify (cssChunks (buildInput entry scripts styles)))
         (JSON.stringify (jsChunks (buildInput entry scripts styles))))
  /\ (forall name,
        name ∈ jsChunks (buildInput entry scripts styles)
        <-> (name ∈ List.map jsName scripts /\ name ≠ entry))
  /\ (forall name,
        name ∈ cssChunks (buildInput entry scripts styles)
        <-> (name ∈ List.map cssName styles /\ name ≠ entry))
  /\ (entry ∉ jsChunks (buildInput entry scripts styles))
  /\ (entry ∉ cssChunks (buildInput entry scripts styles))
  /\ jsChunks
       (buildInput (str "main") [str "js/main.js"; str "js/vendor.js"]
          [str "css/main.css"])
     = [str "vendor"]
  /\ cssChunks
       (buildInput (str "main") [str "js/main.js"; str "js/vendor.js"]
          [str "css/main.css"])
     = []
  /\ buildManifest (str "main") [str "js/main.js"; str "js/vendor.js"]
       [str "css/main.css"]
     = Normal
         (str "<?php return array(" ++ LF ++
          str "    'css' => []," ++ LF ++
          str "    'js' => [" ++ DQ ++ str "vendor" ++ DQ ++ str "]);").
Proof.
  split; [apply buildManifest_unfold|].
  split; [intros name; apply elem_of_jsChunks|].
  split; [intros name; apply elem_of_cssChunks|].
  split; [rewrite elem_of_jsChunks; tauto|].
  split; [rewrite elem_of_cssChunks; tauto|].
  repeat split; vm_compute; reflexivity.
Qed.

(** C3 (as the code has it): buildManifest raises no error for any
    input.  For every entry name and every script and stylesheet list,
    also with script paths that do not end in [.js], it returns the
    complete manifest.  The name of a script path is its base filename
    without the last three code units, and it is listed exactly when it
    differs from the entry name: for the path ["chunk"] the name is
    ["ch"], which the manifest of the entry ["main"] lists and the
    manifest of the entry ["ch"] leaves out. *)
Theorem buildManifest_never_raises entry scripts styles :
  (exists text, buildManifest entry scripts styles = Normal text)
  /\ (forall e, buildManifest entry scripts styles ≠ Throw e)
  /\ buildManifest entry scripts styles
     = Normal
         (phpManifest
            (JSON.stringify
               (List.filter (fun f => loose_neq f (Some entry))
                  (List.map cssName styles)))
            (JSON.stringify
               (List.filter (fun f => loose_neq f (Some entry))
                  (List.map jsName scripts))))
  /\ (forall path,
        path ∈ scripts ->
        jsName path
        = take (List.length (filenameOf path) - 3) (filenameOf path)
        /\ (jsName path ∈ jsChunks (buildInput entry scripts styles)
            <-> jsName path ≠ entry))
  /\ buildManifest (str "main") [str "chunk"] []
     = Normal
         (str "<?php return array(" ++ LF ++
          str "    'css' => []," ++ LF ++
          str "    'js' => [" ++ DQ ++ str "ch" ++ DQ ++ str "]);")
  /\ buildManifest (str "ch") [str "chunk"] []
     = Normal
         (str "<?php return array(" ++ LF ++
          str "    'css' => []," ++ LF ++
          str "    'js' => []);").
Proof.
  split; [by eexists|].
  split; [by intros e|].
  split; [reflexivity|].
  split; [|split; vm_compute; reflexivity].
  intros path Hpath. split; [apply jsName_take|].
  rewrite elem_of_jsChunks. split; [by intros [_ Hne]|].
  intros Hne. split; [|done].
  apply elem_of_List_map. by exists path.
Qed.

(** C3, the claim as stated fails: ["chunk"] is in the script list and
    does not end in [.js], yet the call returns a manifest, with the
    truncated name ["ch"], and raises no MalformedInput. *)
Lemma buildManifest_chunk_not_raised :
  str "chunk" ∈ [str "chunk"]
  /\ ~ (str ".js" `suffix_of` str "chunk")
  /\ buildManifest (str "main") [str "chunk"] [] ≠ Throw MalformedInput
  /\ buildManifest (str "main") [str "chunk"] []
     = Normal
         (str "<?php return array(" ++ LF ++
          str "    'css' => []," ++ LF ++
          str "    'js' => [" ++ DQ ++ str "ch" ++ DQ ++ str "]);").
Proof.
  split; [apply list_elem_of_here|].
  split.
  - intros [k Hk]. apply (f_equal (fun l => last l)) in Hk.
    rewrite last_app in Hk. vm_compute in Hk. destruct k; discriminate.
  - split; [discriminate|vm_compute; reflexivity].
Qed.

(** C4: buildManifest keeps the surviving names in the order of the
    input files: the derived list of a concatenation is the concatenation
    of the derived lists, a single file yields its bare name or nothing,
    and the derived list is a sublist of the bare names.  For
    [buildManifest("x", ["a.js","b.js","c.js"], [])] the script list is
    [["a","b","c"]] and the stylesheet list is empty. *)
Theorem buildManifest_order_preserved entry scripts scripts' styles styles'
    path :
  jsChunks (buildInput entry (scripts ++ scripts') styles)
  = jsChunks (buildInput entry scripts styles)
    ++ jsChunks (buildInput entry scripts' styles)
  /\ cssChunks (buildInput entry scripts (styles ++ styles'))
     = cssChunks (buildInput entry scripts styles)
       ++ cssChunks (buildInput entry scripts styles')
  /\ jsChunks (buildInput entry [path] styles)
     = (if decide (jsName path = entry) then [] else [jsName path])
  /\ cssChunks (buildInput entry scripts [path])
     = (if decide (cssName path = entry) then [] else [cssName path])
  /\ jsChunks (buildInput entry scripts styles)
     `sublist_of` List.map jsName scripts
  /\ cssChunks (buildInput entry scripts styles)
     `sublist_of` List.map cssName styles
  /\ buildManifest entry scripts styles
     = Normal
         (phpManifest
            (JSON.stringify (cssChunks (buildInput entry scripts styles)))
            (JSON.stringify (jsChunks (buildInput entry scripts styles))))
  /\ jsChunks (buildInput (str "x") [str "a.js"; str "b.js"; str "c.js"] [])
     = [str "a"; str "b"; str "c"]
  /\ cssChunks (buildInput (str "x") [str "a.js"; str "b.js"; str "c.js"] [])
     = []
  /\ buildManifest (str "x") [str "a.js"; str "b.js"; str "c.js"] []
     = Normal
         (str "<?php return array(" ++ LF ++
          str "    'css' => []," ++ LF ++
          str "    'js' => [" ++ DQ ++ str "a" ++ DQ ++ str "," ++
          DQ ++ str "b" ++ DQ ++ str "," ++ DQ ++ str "c" ++ DQ ++
          str "]);").
Proof.
  split; [by rewrite !jsChunks_buildInput, List.map_app, List.filter_app|].
  split; [by rewrite !cssChunks_buildInput, List.map_app, List.filter_app|].
  split.
  { rewrite jsChunks_buildInput. cbn [List.map].
    rewrite filter_one, loose_neq_decide. by destruct (decide _). }
  split.
  { rewrite cssChunks_buildInput. cbn [List.map].
    rewrite filter_one, loose_neq_decide. by destruct (decide _). }
  split; [apply List_filter_sublist|].
  split; [apply List_filter_sublist|].
  split; [apply buildManifest_unfold|].
  repeat split; vm_compute; reflexivity.
Qed.

(** C6: only the text after the final ['/'] of a path is used as its base
    filename, whatever the directories before it, and a path without ['/']
    is its own base filename; the bare names are computed from that base
    filename alone.  For [buildManifest("main", ["dir/sub/chunk-a.js"], [])]
    the script list is [["chunk-a"]] and the stylesheet list is empty. *)
Theorem filenameOf_final_segment (dir base : jsstring) :
  47%N ∉ base ->
  filenameOf (dir ++ str "/" ++ base) = base
  /\ filenameOf base = base
  /\ jsName (dir ++ str "/" ++ base) = jsName base
  /\ cssName (dir ++ str "/" ++ base) = cssName base
  /\ (forall path, 47%N ∉ filenameOf path)
  /\ (forall path,
        47%N ∉ path
        \/ exists dir' base',
             path = dir' ++ str "/" ++ base' /\ filenameOf path = base')
  /\ filenameOf (str "dir/sub/chunk-a.js") = str "chunk-a.js"
  /\ jsChunks (buildInput (str "main") [str "dir/sub/chunk-a.js"] [])
     = [str "chunk-a"]
  /\ cssChunks (buildInput (str "main") [str "dir/sub/chunk-a.js"] []) = []
  /\ buildManifest (str "main") [str "dir/sub/chunk-a.js"] []
     = Normal
         (str "<?php return array(" ++ LF ++
          str "    'css' => []," ++ LF ++
          str "    'js' => [" ++ DQ ++ str "chunk-a" ++ DQ ++ str "]);").
Proof.
  intros Hbase. change (str "/") with [47%N]. cbn [app].
  assert (Hdir : filenameOf (dir ++ 47%N :: base) = base)
    by by apply filenameOf_after_last_slash.
  split; [done|].
  split; [by apply filenameOf_no_slash|].
  split; [unfold jsName; by rewrite Hdir, filenameOf_no_slash|].
  split; [unfold cssName; by rewrite Hdir, filenameOf_no_slash|].
  split; [apply filenameOf_slash_free|].
  split.
  { intros path.
    destruct (split_last_slash path) as [Hp|(dir' & base' & -> & Hb)].
    - by left.
    - right. exists dir', base'.
      split; [done|by apply filenameOf_after_last_slash]. }
  repeat split; vm_compute; reflexivity.
Qed.

Lemma filenameOf_final_segment_witness :
  filenameOf (str "dir/sub" ++ str "/" ++ str "chunk-a.js")
  = str "chunk-a.js".
Proof.
  apply (filenameOf_final_segment (str "dir/sub") (str "chunk-a.js")).
  vm_compute. intros H. repeat (apply elem_of_cons in H as [H|H];
    [discriminate H|]). by apply elem_of_nil in H.
Defined.

(** C9: the bare name of a script path is its base filename without its
    last three code units, that of a stylesheet path its base filename
    without its last four, whatever those code units are: nothing compares
    them with [.js] or [.css].  A base filename no longer than that gives
    the empty name; the script ["chunk"] gives ["ch"].  The template has
    no error path: it returns a manifest for every input. *)
Theorem bare_names_cut_by_length (pathname : jsstring) :
  jsName pathname
  = take (List.length (filenameOf pathname) - 3) (filenameOf pathname)
  /\ cssName pathname
     = take (List.length (filenameOf pathname) - 4) (filenameOf pathname)
  /\ List.length (jsName pathname)
     = (List.length (filenameOf pathname) - 3)%nat
  /\ List.length (cssName pathname)
     = (List.length (filenameOf pathname) - 4)%nat
  /\ jsName pathname ++ drop (List.length (filenameOf pathname) - 3)
                          (filenameOf pathname)
     = filenameOf pathname
  /\ cssName pathname ++ drop (List.length (filenameOf pathname) - 4)
                           (filenameOf pathname)
     = filenameOf pathname
  /\ jsName (str "chunk") = str "ch"
  /\ jsName (str "a.ts") = str "a"
  /\ jsName (str "js") = str ""
  /\ cssName (str "a.js") = str ""
  /\ cssName (str "style") = str "s"
  /\ (forall htmlWebpackPlugin,
        exists text, templateContent htmlWebpackPlugin = Normal text)
  /\ (forall htmlWebpackPlugin e, templateContent htmlWebpackPlugin ≠ Throw e)
  /\ buildManifest (str "main") [str "chunk"] [str "style"]
     = Normal
         (str "<?php return array(" ++ LF ++
          str "    'css' => [" ++ DQ ++ str "s" ++ DQ ++ str "]," ++ LF ++
          str "    'js' => [" ++ DQ ++ str "ch" ++ DQ ++ str "]);").
Proof.
  split; [apply jsName_take|].
  split; [apply cssName_take|].
  split; [rewrite jsName_take, length_take; lia|].
  split; [rewrite cssName_take, length_take; lia|].
  split; [rewrite jsName_take; apply take_drop|].
  split; [rewrite cssName_take; apply take_drop|].
  do 5 (split; [vm_compute; reflexivity|]).
  split; [intros hwp; by eexists|].
  split; [by intros hwp e|].
  vm_compute; reflexivity.
Qed.

(** ** The form label *)

Lemma indexOf_from_spec (l : list jsstring) (x : jsstring) (k : Z) :
  ((x ∉ l) /\ JSArray.indexOf_from l x k = -1)
  \/ (x ∈ l /\ k <= JSArray.indexOf_from l x k).
Proof.
  revert k. induction l as [|y l IH]; intros k; cbn.
  - left. split; [apply not_elem_of_nil|done].
  - destruct (decide (y = x)) as [->|Hne].
    + right. split; [apply list_elem_of_here|lia].
    + destruct (IH (k + 1)) as [[Hx Hi]|[Hx Hi]].
      * left. split; [by apply not_elem_of_cons|done].
      * right. split; [by apply list_elem_of_further|lia].
Qed.

(** [l.indexOf(x) > -1] is membership of [x] in [l]. *)
Lemma indexOf_gt (l : list jsstring) (x : jsstring) :
  (JSArray.indexOf l x >? -1) = bool_decide (x ∈ l).
Proof.
  unfold JSArray.indexOf.
  destruct (indexOf_from_spec l x 0) as [[Hx Hi]|[Hx Hi]].
  - rewrite Hi, bool_decide_eq_false_2 by done. reflexivity.
  - rewrite bool_decide_eq_true_2 by done. apply Z.gtb_lt. lia.
Qed.

Section FormLabelFacts.

Variable REQUIRED_INPUTS : list jsstring.
Variable __ : jsstring -> jsstring -> jsstring.
Variables (placement preset_size : Type).
Variable PLACEMENT_BOTTOM_START : placement.
Variable PRESET_SIZES_XX_SMALL : preset_size.

Local Abbreviation render :=
  (FormLabel REQUIRED_INPUTS __ PLACEMENT_BOTTOM_START
     PRESET_SIZES_XX_SMALL).

Lemma FormLabel_in props :
  htmlFor props ∈ REQUIRED_INPUTS ->
  render props
  = Normal
      (Tooltip (__ (str "Required") (str "web-stories"))
         PLACEMENT_BOTTOM_START
         (Element RequiredHeadline (str "label") PRESET_SIZES_XX_SMALL
            (htmlFor props) (copy props))).
Proof.
  intros Hin. unfold FormLabel. cbn zeta.
  by rewrite indexOf_gt, bool_decide_eq_true_2.
Qed.

Lemma FormLabel_not_in props :
  htmlFor props ∉ REQUIRED_INPUTS ->
  render props
  = Normal
      (Element Headline (str "label") PRESET_SIZES_XX_SMALL
         (htmlFor props) (copy props)).
Proof.
  intros Hin. unfold FormLabel. cbn zeta.
  by rewrite indexOf_gt, bool_decide_eq_false_2.
Qed.

Lemma markers_RequiredHeadline title (place : placement) a
    (s : preset_size) f t :
  markers (Tooltip title place (Element RequiredHeadline a s f t))
  = [Literal (str "'*'")].
Proof. reflexivity. Qed.

(** C1: for a field identifier in the required-fields list, FormLabel
    returns a tooltip whose title is the localized "Required" text and
    whose placement is bottom-start, wrapped around the label; the
    label's component type puts the marker glyph ['*'] after it. *)
Theorem FormLabel_required props :
  htmlFor props ∈ REQUIRED_INPUTS ->
  exists e,
    render props = Normal e
    /\ e = Tooltip (__ (str "Required") (str "web-stories"))
             PLACEMENT_BOTTOM_START (label_of e)
    /\ label_of e
       = Element RequiredHeadline (str "label") PRESET_SIZES_XX_SMALL
           (htmlFor props) (copy props)
    /\ markers e = [Literal (str "'*'")]
    /\ tooltips e
       = [(__ (str "Required") (str "web-stories"),
           PLACEMENT_BOTTOM_START)].
Proof.
  intros Hin. eexists. split; [by apply FormLabel_in|].
  repeat split; reflexivity.
Qed.

(** C5: for a field identifier not in the required-fields list, what
    FormLabel returns has neither a marker glyph nor a tooltip: it is
    the plain headline label. *)
Theorem FormLabel_not_required props :
  htmlFor props ∉ REQUIRED_INPUTS ->
  exists e,
    render props = Normal e
    /\ e = Element Headline (str "label") PRESET_SIZES_XX_SMALL
             (htmlFor props) (copy props)
    /\ markers e = []
    /\ tooltips e = [].
Proof.
  intros Hin. eexists. split; [by apply FormLabel_not_in|].
  by repeat split.
Qed.

(** C7: for every identifier and text, required or not, the label
    element of what FormLabel returns is rendered as a [label] whose
    [htmlFor] is the given identifier, whose text is the given text and
    whose size is the one preset [XX_SMALL], in both branches. *)
Theorem FormLabel_label_association props :
  exists e type,
    render props = Normal e
    /\ label_of e
       = Element type (str "label") PRESET_SIZES_XX_SMALL
           (htmlFor props) (copy props)
    /\ (type = RequiredHeadline \/ type = Headline).
Proof.
  destruct (decide (htmlFor props ∈ REQUIRED_INPUTS)) as [Hin|Hin].
  - eexists _, RequiredHeadline. rewrite FormLabel_in by done.
    split; [done|]. split; [done|by left].
  - eexists _, Headline. rewrite FormLabel_not_in by done.
    split; [done|]. split; [done|by right].
Qed.

(** C10: FormLabel validates nothing.  For all strings [htmlFor] and
    [copy], the empty string too, it returns a label element and throws
    nothing; the element carries the marker and the tooltip exactly when
    [htmlFor] is in the required-inputs list. *)
Theorem FormLabel_no_validation props :
  (forall err, render props ≠ Throw err)
  /\ (exists e type,
        render props = Normal e
        /\ label_of e
           = Element type (str "label") PRESET_SIZES_XX_SMALL
               (htmlFor props) (copy props)
        /\ ((markers e ≠ [] /\ tooltips e ≠ [])
            <-> htmlFor props ∈ REQUIRED_INPUTS)
        /\ ((markers e = [] /\ tooltips e = [])
            <-> htmlFor props ∉ REQUIRED_INPUTS))
  /\ (exists e type,
        render {| htmlFor := str ""; copy := str "" |} = Normal e
        /\ label_of e
           = Element type (str "label") PRESET_SIZES_XX_SMALL
               (str "") (str "")).
Proof.
  split; [by intros err|]. split.
  - destruct (decide (htmlFor props ∈ REQUIRED_INPUTS)) as [Hin|Hin].
    + eexists _, RequiredHeadline. rewrite FormLabel_in by done.
      split; [done|]. split; [done|].
      rewrite markers_RequiredHeadline. cbn [tooltips].
      split; split; try done. by intros [? _].
    + eexists _, Headline. rewrite FormLabel_not_in by done.
      split; [done|]. split; [done|].
      cbn [markers tooltips label_of after_contents].
      split; split; try done. by intros [? _].
  - destruct (decide (str "" ∈ REQUIRED_INPUTS)) as [Hin|Hin].
    + eexists _, RequiredHeadline. by rewrite FormLabel_in.
    + eexists _, Headline. by rewrite FormLabel_not_in.
Qed.

End FormLabelFacts.

Lemma FormLabel_required_witness :
  exists e,
    FormLabel sample_REQUIRED_INPUTS sample_translate sample_BOTTOM_START
      sample_XX_SMALL {| htmlFor := str "title"; copy := str "Story Title" |}
    = Normal e
    /\ e = Tooltip (str "Required") sample_BOTTOM_START (label_of e)
    /\ label_of e
       = Element RequiredHeadline (str "label") sample_XX_SMALL
           (str "title") (str "Story Title")
    /\ markers e = [Literal (str "'*'")]
    /\ tooltips e = [(str "Required", sample_BOTTOM_START)].
Proof.
  apply (FormLabel_required sample_REQUIRED_INPUTS sample_translate
           (list N) (list N) sample_BOTTOM_START sample_XX_SMALL
           {| htmlFor := str "title"; copy := str "Story Title" |}).
  apply list_elem_of_further, list_elem_of_here.
Defined.

Lemma FormLabel_not_required_witness :
  exists e,
    FormLabel sample_REQUIRED_INPUTS sample_translate sample_BOTTOM_START
      sample_XX_SMALL {| htmlFor := str "slug"; copy := str "URL Slug" |}
    = Normal e
    /\ e = Element Headline (str "label") sample_XX_SMALL
             (str "slug") (str "URL Slug")
    /\ markers e = []
    /\ tooltips e = [].
Proof.
  apply (FormLabel_not_required sample_REQUIRED_INPUTS sample_translate
           (list N) (list N) sample_BOTTOM_START sample_XX_SMALL
           {| htmlFor := str "slug"; copy := str "URL Slug" |}).
  cbn [htmlFor]. intros H. vm_compute in H.
  repeat (apply elem_of_cons in H as [H|H]; [discriminate H|]).
  by apply elem_of_nil in H.
Defined.

(** ** The store: nothing is written, results depend on contents only *)

Section HeapFacts.

Implicit Types (s : gmap positive (list (list N))) (a r : positive).
Implicit Types (l : list (list N)).

Lemma bind_run {A B} (m : Heap.M A) (k : A -> Heap.M B) s x s' :
  m s = Some (x, s') -> Heap.bind m k s = k x s'.
Proof. intros Hm. unfold Heap.bind. by rewrite Hm. Qed.

Lemma read_run s a l : s !! a = Some l -> Heap.read a s = Some (l, s).
Proof. intros Ha. unfold Heap.read. by rewrite Ha. Qed.













(** The store can be written: after [a.push(x)] the array at [a] is
    longer, so the store before is not part of the store after. *)
Lemma Array_push_writes s a l x :
  s !! a = Some l ->
  exists s',
    Heap.Array_push a x s = Some (Z.of_nat (List.length (l ++ [x])), s')
    /\ s' !! a = Some (l ++ [x])
    /\ ~ s ⊆ s'.
Proof.
  intros Ha. exists (<[a := l ++ [x]]> s). split; [|split].
  - unfold Heap.Array_push.
    rewrite (bind_run _ _ _ _ _ (read_run _ _ _ Ha)).
    unfold Heap.bind, Heap.write. by rewrite Ha.
  - apply lookup_insert_eq.
  - intros Hsub. pose proof (lookup_weaken _ _ _ _ Ha Hsub) as H.
    rewrite lookup_insert_eq in H. injection H as H.
    apply (f_equal (@List.length _)) in H.
    rewrite List.length_app in H. cbn in H. lia.
Qed.

End HeapFacts.



(** ** More on the manifest template *)

(** X1: the base filename of a path is a suffix of the path, taking it twice
    changes nothing, a path that ends in ['/'] has the empty base filename,
    and the bare names depend on the path through its base filename
    only. *)
Theorem filenameOf_idempotent (pathname : jsstring) :
  filenameOf (filenameOf pathname) = filenameOf pathname
  /\ filenameOf pathname `suffix_of` pathname
  /\ filenameOf (pathname ++ str "/") = str ""
  /\ jsName (filenameOf pathname) = jsName pathname
  /\ cssName (filenameOf pathname) = cssName pathname.
Proof.
  assert (Hidem : filenameOf (filenameOf pathname) = filenameOf pathname)
    by apply filenameOf_no_slash, filenameOf_slash_free.
  split; [done|]. split.
  { destruct (split_last_slash pathname) as [Hp|(dir & base & -> & Hbase)].
    - by rewrite filenameOf_no_slash.
    - rewrite filenameOf_after_last_slash by done.
      exists (dir ++ [47%N]). by rewrite <- app_assoc. }
  split.
  { change (str "/") with [47%N]. apply filenameOf_after_last_slash.
    apply not_elem_of_nil. }
  split; [unfold jsName|unfold cssName]; by rewrite Hidem.
Qed.



Lemma filter_all (p : jsstring -> bool) (l : list jsstring) :
  (forall x, p x = true) -> List.filter p l = l.
Proof.
  intros Hp. induction l as [|x l IH]; cbn; [done|].
  by rewrite Hp, IH.
Qed.

(** X3: when [options.chunks] is empty there is no primary chunk
    ([chunks[0]] is [undefined], which no string equals): nothing is
    left out, every file is listed under its bare name. *)
Theorem no_chunk_nothing_omitted (f : Files) :
  jsChunks {| options := {| chunks := [] |}; files := f |}
  = List.map jsName (js f)
  /\ cssChunks {| options := {| chunks := [] |}; files := f |}
     = List.map cssName (css f).
Proof. split; by apply filter_all. Qed.

(** X4: only the first of [options.chunks] counts as the primary chunk: the
    manifest for [chunks: [first, ...others]] is the manifest for
    [chunks: [first]], so a file of one of the other chunks is listed
    whenever its bare name differs from the first. *)
Theorem only_first_chunk_omitted (first : jsstring)
    (others : list jsstring) (f : Files) :
  templateContent {| options := {| chunks := first :: others |}; files := f |}
  = buildManifest first (js f) (css f)
  /\ (forall name,
        name ∈ jsChunks {| options := {| chunks := first :: others |};
                           files := f |}
        <-> (name ∈ List.map jsName (js f) /\ name ≠ first))
  /\ (forall name,
        name ∈ cssChunks {| options := {| chunks := first :: others |};
                            files := f |}
        <-> (name ∈ List.map cssName (css f) /\ name ≠ first)).
Proof.
  split; [reflexivity|]. split; intros name.
  - apply (elem_of_jsChunks first (js f) (css f)).
  - apply (elem_of_cssChunks first (js f) (css f)).
Qed.

(** ** The text of the manifest *)

Section QuoteFacts.

Implicit Types (c d u : N) (s t rest : list N) (l : list (list N)).

Lemma list_ind2 (P : list N -> Prop) :
  P [] -> (forall c, P [c]) ->
  (forall c d s, P s -> P (d :: s) -> P (c :: d :: s)) ->
  forall s, P s.
Proof.
  intros Hnil Hone Hstep s.
  assert (H : P s /\ forall c, P (c :: s)); [|by destruct H].
  induction s as [|d s [IH1 IH2]]; [by split|].
  split; [done|]. intros c. by apply Hstep.
Qed.

Lemma hex_digit_printable d : (32 <= JSON.hex_digit d)%N.
Proof. unfold JSON.hex_digit. destruct (d <? 10)%N; lia. Qed.

Lemma quote_unit_printable c : Forall (fun u => 32 <= u)%N (JSON.quote_unit c).
Proof.
  unfold JSON.quote_unit.
  repeat (match goal with
          | |- context [N.eqb c ?n] => destruct (N.eqb c n)
          end; [vm_compute; repeat constructor; discriminate|]).
  destruct (N.ltb_spec c 32) as [|Hc]; cbn [orb].
  - unfold JSON.UnicodeEscape.
    repeat constructor; try apply hex_digit_printable; lia.
  - destruct (_ || _).
    + unfold JSON.UnicodeEscape.
      repeat constructor; try apply hex_digit_printable; lia.
    + by repeat constructor.
Qed.

Lemma leading_surrogate_printable c :
  JSON.is_leading_surrogate c = true -> (55296 <= c)%N.
Proof.
  unfold JSON.is_leading_surrogate. intros [H _]%andb_true_iff.
  by apply N.leb_le in H.
Qed.

Lemma trailing_surrogate_printable c :
  JSON.is_trailing_surrogate c = true -> (56320 <= c)%N.
Proof.
  unfold JSON.is_trailing_surrogate. intros [H _]%andb_true_iff.
  by apply N.leb_le in H.
Qed.

Lemma quote_units_printable s :
  Forall (fun u => 32 <= u)%N (JSON.quote_units s).
Proof.
  induction s as [|c|c d s IH1 IH2] using list_ind2.
  - constructor.
  - apply quote_unit_printable.
  - cbn [JSON.quote_units] in *.
    destruct (JSON.is_leading_surrogate c) eqn:Hc;
      [destruct (JSON.is_trailing_surrogate d) eqn:Hd|]; cbn [andb].
    + apply leading_surrogate_printable in Hc.
      apply trailing_surrogate_printable in Hd.
      constructor; [lia|]. constructor; [lia|done].
    + apply Forall_app. split; [apply quote_unit_printable|done].
    + apply Forall_app. split; [apply quote_unit_printable|done].
Qed.

Lemma stringify_printable l :
  Forall (fun u => 32 <= u)%N (JSON.stringify l).
Proof.
  unfold JSON.stringify. constructor; [lia|]. apply Forall_app. split.
  - induction l as [|s l IH]; [constructor|].
    assert (Hs : Forall (fun u => 32 <= u)%N (JSON.QuoteJSONString s)).
    { unfold JSON.QuoteJSONString. constructor; [lia|].
      apply Forall_app. split; [apply quote_units_printable|].
      by repeat constructor. }
    cbn [List.map JSON.join_comma]. destruct (List.map _ l) eqn:Hl; [done|].
    apply Forall_app. split; [done|]. constructor; [lia|done].
  - by repeat constructor.
Qed.

Lemma printable_no_LF t :
  Forall (fun u => 32 <= u)%N t -> List.filter (N.eqb 10) t = [].
Proof.
  induction 1 as [|u t Hu _ IH]; [done|]. cbn [List.filter].
  destruct (N.eqb_spec 10 u) as [<-|_]; [lia|done].
Qed.

Lemma printable_or_LF t :
  Forall (fun u => 32 <= u)%N t -> Forall (fun u => u = 10 \/ 32 <= u)%N t.
Proof. intros H. eapply Forall_impl; [exact H|]. intros u Hu. by right. Qed.

Lemma printable_or_LF_check t :
  forallb (fun u => N.eqb u 10 || N.leb 32 u) t = true ->
  Forall (fun u => u = 10 \/ 32 <= u)%N t.
Proof.
  intros H. apply Forall_forall. intros u Hu%list_elem_of_In.
  rewrite forallb_forall in H. specialize (H u Hu).
  apply orb_true_iff in H as [H|H].
  - left. by apply N.eqb_eq.
  - right. by apply N.leb_le.
Qed.

End QuoteFacts.

(** X6: whatever the chunk names contain, the manifest is three lines of
    text: it starts with [<?php return array(], ends with [);], has
    exactly two line feeds, those of the template, and no other code
    unit below 32, since [JSON.stringify] escapes them. *)
Theorem manifest_three_lines (htmlWebpackPlugin : HtmlWebpackPlugin) :
  exists text,
    templateContent htmlWebpackPlugin = Normal text
    /\ str "<?php return array(" `prefix_of` text
    /\ str ");" `suffix_of` text
    /\ List.length (List.filter (N.eqb 10) text) = 2%nat
    /\ Forall (fun u => u = 10 \/ 32 <= u)%N text.
Proof.
  eexists. split; [reflexivity|].
  set (c := JSON.stringify (cssChunks htmlWebpackPlugin)).
  set (j := JSON.stringify (jsChunks htmlWebpackPlugin)).
  pose proof (stringify_printable (cssChunks htmlWebpackPlugin)) as Hc.
  pose proof (stringify_printable (jsChunks htmlWebpackPlugin)) as Hj.
  fold c in Hc. fold j in Hj. clearbody c j. unfold phpManifest.
  split; [by eexists|].
  split; [do 8 apply suffix_app_r; by exists []|].
  split.
  - rewrite !List.filter_app.
    rewrite (printable_no_LF c Hc), (printable_no_LF j Hj).
    vm_compute. reflexivity.
  - do 8 (apply Forall_app; split;
          [first [ by apply printable_or_LF
                 | apply printable_or_LF_check; reflexivity ]|]).
    apply printable_or_LF_check; reflexivity.
Qed.

(** ** The manifest loses nothing *)

Section UnquoteFacts.

Implicit Types (c d u : N) (s t rest : list N) (l : list (list N)).

Lemma unhex_hex_digit d : (d < 16)%N -> unhex (JSON.hex_digit d) = d.
Proof.
  intros Hd. unfold unhex, JSON.hex_digit.
  destruct (N.ltb_spec d 10).
  - destruct (N.ltb_spec (48 + d) 58); lia.
  - destruct (N.ltb_spec (87 + d) 58); lia.
Qed.

Lemma hex_digits_value c :
  (c < 65536)%N ->
  (4096 * (c / 4096 mod 16) + 256 * (c / 256 mod 16)
   + 16 * (c / 16 mod 16) + c mod 16 = c)%N.
Proof.
  intros Hc.
  assert (H1 : (c / 256 = 16 * (c / 4096) + c / 256 mod 16)%N).
  { change 4096%N with (256 * 16)%N. rewrite <- N.Div0.div_div.
    apply N.div_mod. lia. }
  assert (H2 : (c / 16 = 16 * (c / 256) + c / 16 mod 16)%N).
  { change 256%N with (16 * 16)%N. rewrite <- N.Div0.div_div.
    apply N.div_mod. lia. }
  assert (H3 : (c = 16 * (c / 16) + c mod 16)%N) by (apply N.div_mod; lia).
  assert (H4 : (c / 4096 < 16)%N) by (apply N.Div0.div_lt_upper_bound; lia).
  rewrite (N.mod_small (c / 4096) 16) by exact H4. lia.
Qed.

Lemma unquote_UnicodeEscape c t :
  (c < 65536)%N ->
  unquote_units (JSON.UnicodeEscape c ++ t)
  = match unquote_units t with
    | Some (s, rest) => Some (c :: s, rest)
    | None => None
    end.
Proof.
  intros Hc. unfold JSON.UnicodeEscape. cbn [app unquote_units].
  change (92 =? 34)%N with false. change (92 =? 92)%N with true.
  change (117 =? 117)%N with true. cbn iota.
  rewrite !unhex_hex_digit by (apply N.mod_lt; lia).
  by rewrite hex_digits_value.
Qed.

Lemma surrogate_range c :
  (c <? 32)%N || JSON.is_leading_surrogate c || JSON.is_trailing_surrogate c
  = true -> (c < 65536)%N.
Proof.
  unfold JSON.is_leading_surrogate, JSON.is_trailing_surrogate.
  rewrite !orb_true_iff, !andb_true_iff, N.ltb_lt, !N.leb_le. lia.
Qed.

Lemma unquote_quote_unit c t :
  unquote_units (JSON.quote_unit c ++ t)
  = match unquote_units t with
    | Some (s, rest) => Some (c :: s, rest)
    | None => None
    end.
Proof.
  unfold JSON.quote_unit.
  destruct (N.eqb_spec c 8) as [->|_]; [reflexivity|].
  destruct (N.eqb_spec c 9) as [->|_]; [reflexivity|].
  destruct (N.eqb_spec c 10) as [->|_]; [reflexivity|].
  destruct (N.eqb_spec c 12) as [->|_]; [reflexivity|].
  destruct (N.eqb_spec c 13) as [->|_]; [reflexivity|].
  destruct (N.eqb_spec c 34) as [->|H34]; [reflexivity|].
  destruct (N.eqb_spec c 92) as [->|H92]; [reflexivity|].
  destruct (_ || _) eqn:Hesc.
  - by apply unquote_UnicodeEscape, surrogate_range.
  - cbn [app unquote_units].
    by rewrite (proj2 (N.eqb_neq c 34) H34), (proj2 (N.eqb_neq c 92) H92).
Qed.

Lemma unquote_raw c t :
  (55296 <= c)%N ->
  unquote_units (c :: t)
  = match unquote_units t with
    | Some (s, rest) => Some (c :: s, rest)
    | None => None
    end.
Proof.
  intros Hc. cbn [unquote_units].
  destruct (N.eqb_spec c 34); [lia|]. destruct (N.eqb_spec c 92); [lia|].
  done.
Qed.

(** Reading back what [QuoteJSONString] wrote gives the string, whatever
    follows the closing quote. *)
Lemma unquote_quote_units s rest :
  unquote_units (JSON.quote_units s ++ 34%N :: rest) = Some (s, rest).
Proof.
  induction s as [|c|c d s IH1 IH2] using list_ind2.
  - reflexivity.
  - cbn [JSON.quote_units]. by rewrite unquote_quote_unit.
  - cbn [JSON.quote_units] in *.
    destruct (JSON.is_leading_surrogate c) eqn:Hc;
      [destruct (JSON.is_trailing_surrogate d) eqn:Hd|]; cbn [andb].
    + apply leading_surrogate_printable in Hc.
      apply trailing_surrogate_printable in Hd.
      cbn [app]. rewrite unquote_raw by lia. rewrite unquote_raw by lia.
      by rewrite IH1.
    + rewrite <- app_assoc, unquote_quote_unit. by rewrite IH2.
    + rewrite <- app_assoc, unquote_quote_unit. by rewrite IH2.
Qed.

Lemma QuoteJSONString_inj_app s1 s2 t1 t2 :
  JSON.QuoteJSONString s1 ++ t1 = JSON.QuoteJSONString s2 ++ t2 ->
  s1 = s2 /\ t1 = t2.
Proof.
  unfold JSON.QuoteJSONString. cbn [app]. rewrite <- !app_assoc. cbn [app].
  intros H. injection H as H. apply (f_equal unquote_units) in H.
  rewrite !unquote_quote_units in H. by injection H.
Qed.

Lemma join_comma_cons s l :
  JSON.join_comma (List.map JSON.QuoteJSONString (s :: l))
  = JSON.QuoteJSONString s ++
    match l with
    | [] => []
    | _ :: _ => 44%N :: JSON.join_comma (List.map JSON.QuoteJSONString l)
    end.
Proof. destruct l; cbn; [by rewrite app_nil_r|done]. Qed.

Lemma join_comma_inj_app l1 l2 t1 t2 :
  JSON.join_comma (List.map JSON.QuoteJSONString l1) ++ 93%N :: t1
  = JSON.join_comma (List.map JSON.QuoteJSONString l2) ++ 93%N :: t2 ->
  l1 = l2 /\ t1 = t2.
Proof.
  revert l2. induction l1 as [|s1 l1 IH]; intros [|s2 l2].
  - cbn. intros H. by injection H.
  - rewrite join_comma_cons. cbn. discriminate.
  - rewrite join_comma_cons. cbn. discriminate.
  - rewrite !join_comma_cons, <- !app_assoc.
    intros [-> H]%QuoteJSONString_inj_app.
    destruct l1 as [|s1' l1], l2 as [|s2' l2]; cbn [app] in H.
    + by injection H as ->.
    + discriminate.
    + discriminate.
    + apply (f_equal (@List.tl N)) in H. cbn [List.tl] in H.
      by apply IH in H as [-> ->].
Qed.

Lemma stringify_inj_app l1 l2 t1 t2 :
  JSON.stringify l1 ++ t1 = JSON.stringify l2 ++ t2 -> l1 = l2 /\ t1 = t2.
Proof.
  unfold JSON.stringify. cbn [app]. rewrite <- !app_assoc. cbn [app].
  intros H. injection H as H. by apply join_comma_inj_app.
Qed.

Lemma Normal_inj {A} (x y : A) : Normal x = Normal y -> x = y.
Proof. by intros [=]. Qed.

End UnquoteFacts.

(** X7: two inputs with the same manifest text have the same lists of
    secondary stylesheet and script names: the lists can be read back
    from the manifest, whatever code units the names contain. *)
Theorem manifest_determines_chunks (v1 v2 : HtmlWebpackPlugin) :
  templateContent v1 = templateContent v2 ->
  cssChunks v1 = cssChunks v2 /\ jsChunks v1 = jsChunks v2.
Proof.
  unfold templateContent, phpManifest. cbn zeta. intros H%Normal_inj.
  do 3 apply app_inv_head in H.
  apply stringify_inj_app in H as [Hcss H]. split; [done|].
  do 3 apply app_inv_head in H.
  by apply stringify_inj_app in H as [Hjs _].
Qed.

Lemma manifest_determines_chunks_witness :
  cssChunks (buildInput (str "main") [str "js/main.js"; str "js/vendor.js"]
               [str "css/main.css"])
  = cssChunks (buildInput (str "app") [str "vendor.js"] [])
  /\ jsChunks (buildInput (str "main") [str "js/main.js"; str "js/vendor.js"]
                 [str "css/main.css"])
     = jsChunks (buildInput (str "app") [str "vendor.js"] []).
Proof.
  apply (manifest_determines_chunks
           (buildInput (str "main") [str "js/main.js"; str "js/vendor.js"]
              [str "css/main.css"])
           (buildInput (str "app") [str "vendor.js"] [])).
  vm_compute. reflexivity.
Defined.

(** ** More on the form label *)

(** X8: FormLabel reads the required-inputs list as a set: two lists that
    agree on whether they hold the identifier, whatever their order and
    repetitions, give the same element. *)
Theorem FormLabel_list_as_set (l1 l2 : list (list N))
    (__ : list N -> list N -> list N) (placement preset_size : Type)
    (bottom_start : placement) (xx_small : preset_size) (props : Props) :
  (htmlFor props ∈ l1 <-> htmlFor props ∈ l2) ->
  FormLabel l1 __ bottom_start xx_small props
  = FormLabel l2 __ bottom_start xx_small props.
Proof.
  intros H. unfold FormLabel. cbn zeta. rewrite !indexOf_gt.
  by rewrite (bool_decide_ext _ _ H).
Qed.

Lemma FormLabel_list_as_set_witness :
  FormLabel sample_REQUIRED_INPUTS sample_translate sample_BOTTOM_START
    sample_XX_SMALL {| htmlFor := str "title"; copy := str "Story Title" |}
  = FormLabel [str "title"; str "excerpt"; str "title"] sample_translate
      sample_BOTTOM_START sample_XX_SMALL
      {| htmlFor := str "title"; copy := str "Story Title" |}.
Proof.
  apply (FormLabel_list_as_set sample_REQUIRED_INPUTS
           [str "title"; str "excerpt"; str "title"]).
  split; intros _.
  - apply list_elem_of_here.
  - apply list_elem_of_further, list_elem_of_here.
Defined.

(** ** requestToExternal *)

Lemma includes_spec (l : list (list N)) (x : list N) :
  includes l x = bool_decide (x ∈ l).
Proof.
  induction l as [|y l IH]; cbn.
  - by rewrite bool_decide_eq_false_2 by apply not_elem_of_nil.
  - destruct (decide (y = x)) as [->|Hne].
    + by rewrite bool_decide_eq_true_2 by apply list_elem_of_here.
    + rewrite IH. apply bool_decide_ext.
      rewrite elem_of_cons. split; [by right|by intros [->|]].
Qed.

(** X9: requestToExternal answers [false] (do not externalize) for exactly
    the three requests [react], [react-dom] and [react-dom/server], and
    [undefined] (leave the decision to the plugin) for every other
    request, other subpaths of those packages included; it never names a
    script global itself. *)
Theorem requestToExternal_three_packages (request : jsstring) :
  (requestToExternal request = VBool false
   <-> request ∈ [str "react"; str "react-dom"; str "react-dom/server"])
  /\ (requestToExternal request = VUndefined
      <-> request ∉ [str "react"; str "react-dom"; str "react-dom/server"])
  /\ (forall global, requestToExternal request ≠ VString global)
  /\ requestToExternal request ≠ VBool true
  /\ requestToExternal (str "react-dom/client") = VUndefined
  /\ requestToExternal (str "React") = VUndefined.
Proof.
  unfold requestToExternal. cbn zeta. rewrite includes_spec.
  split; [|split; [|split; [|split]]].
  - case_bool_decide; naive_solver.
  - case_bool_decide; naive_solver.
  - intros global. by case_bool_decide.
  - by case_bool_decide.
  - split; vm_compute; reflexivity.
Qed.

(** ** The exported configurations *)

Section ConfigFacts.

Implicit Types (env : ProcessEnv).

Lemma isProduction_spec env :
  isProduction env = bool_decide (NODE_ENV env = Some (str "production")).
Proof.
  destruct env as [[[|c t]|] ba bc]; [reflexivity| |reflexivity].
  unfold isProduction, NODE_ENV_assigned, js_or.
  cbn [NODE_ENV env_value ToBoolean strict_eq_string].
  apply bool_decide_ext. split; intros H; congruence.
Qed.

Lemma get_mode env : get (sharedConfig env) "mode" = mode env.
Proof. reflexivity. Qed.

Lemma get_devtool env :
  get (sharedConfig env) "devtool"
  = if isProduction env then VUndefined else vstr "source-map".
Proof.
  change (get (sharedConfig env) "devtool")
    with (if negb (isProduction env) then vstr "source-map" else VUndefined).
  by destruct (isProduction env).
Qed.

Lemma rules_of_sharedConfig env :
  rules_of (sharedConfig env) = List.filter ToBoolean (rules_literal env).
Proof. reflexivity. Qed.

(** X10: the module runs in production mode exactly when [NODE_ENV] is the
    string [production]: a value that is not set or empty is replaced by
    [development], every other value is kept, and all of them select the
    development mode.  Source maps ([devtool]) are on in development mode
    and off in production mode. *)
Theorem mode_follows_NODE_ENV env :
  (exists s,
     NODE_ENV_assigned env = VString s
     /\ s ≠ []
     /\ (forall t, NODE_ENV env = Some t -> t ≠ [] -> s = t)
     /\ (NODE_ENV env = None \/ NODE_ENV env = Some [] ->
         s = str "development"))
  /\ (mode env = vstr "production"
      <-> NODE_ENV env = Some (str "production"))
  /\ (mode env = vstr "development"
      <-> NODE_ENV env ≠ Some (str "production"))
  /\ get (sharedConfig env) "mode" = mode env
  /\ (get (sharedConfig env) "devtool" = VUndefined
      <-> NODE_ENV env = Some (str "production"))
  /\ (get (sharedConfig env) "devtool" = vstr "source-map"
      <-> NODE_ENV env ≠ Some (str "production")).
Proof.
  split.
  { destruct env as [[[|c t]|] ba bc];
      unfold NODE_ENV_assigned, js_or;
      cbn [NODE_ENV env_value ToBoolean vstr].
    - exists (str "development"). repeat split; try done.
      by intros t [= <-].
    - exists (c :: t). repeat split; try done.
      + by intros t' [= <-].
      + by intros [|].
    - exists (str "development"). by repeat split. }
  rewrite get_mode, get_devtool. unfold mode. rewrite isProduction_spec.
  case_bool_decide as H; repeat split; try done; by intros [=].
Qed.

(** X11: the rules of the shared configuration hold no [false] left by the
    [!isProduction && ...] entry: each is a rule with a [test].  In
    production mode there are four and none uses [source-map-loader] or
    is enforced; otherwise there are five and the first is the
    pre-enforced [source-map-loader] rule for [.js] files.  The
    [cacheDirectory] of babel-loader is [BABEL_CACHE_DIRECTORY] when that
    is set and not empty, and [true] otherwise. *)
Theorem rules_follow_mode env :
  Forall (fun rule => exists source flags,
              get rule "test" = VRegExp source flags)
    (rules_of (sharedConfig env))
  /\ (NODE_ENV env = Some (str "production") ->
      List.length (rules_of (sharedConfig env)) = 4%nat
      /\ Forall (fun rule =>
                   get rule "enforce" = VUndefined
                   /\ (vstr "source-map-loader" ∉ items_of (get rule "use")))
           (rules_of (sharedConfig env)))
  /\ (NODE_ENV env ≠ Some (str "production") ->
      List.length (rules_of (sharedConfig env)) = 5%nat
      /\ head (rules_of (sharedConfig env))
         = Some (VObject
                   [ prop "test" (regexp "\.js$" "");
                     prop "use" (VArray [vstr "source-map-loader"]);
                     prop "enforce" (vstr "pre") ]))
  /\ List.map cacheDirectory_of
       (List.filter (rule_test_is "\.js$")
          (List.filter (fun rule => negb (ToBoolean (get rule "enforce")))
             (rules_of (sharedConfig env))))
     = [ match BABEL_CACHE_DIRECTORY env with
         | Some (c :: t) => VString (c :: t)
         | _ => VBool true
         end ].
Proof.
  rewrite rules_of_sharedConfig. unfold rules_literal.
  rewrite isProduction_spec.
  case_bool_decide as H; cbn [negb js_and ToBoolean List.filter].
  - split.
    { repeat (constructor; [by eexists _, _|]). constructor. }
    split.
    { intros _. split; [reflexivity|].
      repeat (constructor;
              [split; [reflexivity|];
               vm_compute; intros Hin;
               repeat (apply elem_of_cons in Hin as [Hin|Hin];
                       [discriminate Hin|]);
               by apply elem_of_nil in Hin|]).
      constructor. }
    split; [done|].
    by destruct env as [ne ba [[|c t]|]].
  - split.
    { repeat (constructor; [by eexists _, _|]). constructor. }
    split; [done|].
    split; [by intros _|].
    by destruct env as [ne ba [[|c t]|]].
Qed.

(** X12: an SVG file gets exactly one of the two SVG rules, for every way of
    matching regular expressions: the rule that leaves [currentColor]
    alone when the file matches [/images\/.*\.svg$/], the rule that
    converts colours otherwise; a file that does not match [/\.svg$/]
    gets neither. *)
Theorem svg_rules_complementary env
    (regexp_test : list N -> list N -> list N -> bool) (resource : list N) :
  List.map currentColor_of
    (List.filter (fun rule => rule_applies regexp_test rule resource)
       (List.filter (rule_test_is "\.svg$") (rules_of (sharedConfig env))))
  = if regexp_test (str "\.svg$") (str "") resource then
      [ if regexp_test (str "images\/.*\.svg$") (str "") resource
        then VBool false
        else regexp "^(?!url|none)" "i" ]
    else [].
Proof.
  rewrite rules_of_sharedConfig. unfold rules_literal.
  destruct (isProduction env);
    cbn [negb js_and ToBoolean List.filter];
    vm_compute;
    repeat (match goal with
            | |- context [regexp_test ?a ?b ?c] =>
                destruct (regexp_test a b c)
            end; try reflexivity).
Qed.

Ltac analyzer_present :=
  split;
  [ intros _; eexists; split; [reflexivity|discriminate]
  | intros _; apply list_elem_of_here ].

Ltac analyzer_absent :=
  split;
  [ intros Hin;
    repeat (apply elem_of_cons in Hin as [Hin|Hin]; [discriminate Hin|]);
    by apply elem_of_nil in Hin
  | intros (s & Heq & Hs); congruence ].

(** X13: every element of the [plugins] of the shared configuration and of the
    three exported configurations is a plugin instance, never a falsy
    value left by [process.env.BUNDLE_ANALYZER && ...]; and each of them
    has the bundle analyzer exactly when [BUNDLE_ANALYZER] is set and not
    empty. *)
Theorem bundle_analyzer_on_request env :
  Forall
    (fun config =>
       Forall (fun plugin => exists ctor args, plugin = VNew ctor args)
         (plugins_of config)
       /\ (VNew (str "BundleAnalyzerPlugin") [] ∈ plugins_of config
           <-> exists s, BUNDLE_ANALYZER env = Some s /\ s ≠ []))
    (sharedConfig env :: module_exports env).
Proof.
  unfold module_exports.
  destruct env as [ne [[|c t]|] bc];
    repeat (constructor;
            [split;
             [vm_compute; repeat (constructor; [by eexists _, _|]);
              constructor
             |vm_compute; first [analyzer_present | analyzer_absent]]|]);
    constructor.
Qed.

(** X14: the manifest plugins match the entries.  In each exported
    configuration, every [HtmlWebpackPlugin] instance names one chunk,
    that chunk is an entry of the same configuration, the file it writes
    is [<chunk>.chunks.php], its template is [templateContent] and
    nothing is injected or minified.  The editor and dashboard build has
    one such plugin for each of its entries, in the order of the entries;
    the other two builds have none. *)
Theorem manifest_plugins_match_entries env :
  Forall
    (fun config =>
       Forall
         (fun plugin =>
            forall args,
              plugin = VNew (str "HtmlWebpackPlugin") args ->
              exists options chunk,
                args = [options]
                /\ get options "chunks" = VArray [VString chunk]
                /\ lookup_prop (props_of (get config "entry")) chunk
                   ≠ VUndefined
                /\ get options "filename"
                   = VString (chunk ++ str ".chunks.php")
                /\ get options "templateContent"
                   = VRef (str "templateContent")
                /\ get options "inject" = VBool false
                /\ get options "minify" = VBool false)
         (plugins_of config))
    (module_exports env)
  /\ manifest_chunks (editorAndDashboard env)
     = List.map (fun entry => VArray [VString (fst entry)])
         (props_of (get (editorAndDashboard env) "entry"))
  /\ manifest_chunks (storyEmbedBlock env) = []
  /\ manifest_chunks (activationNotice env) = [].
Proof.
  split.
  - unfold module_exports.
    destruct env as [ne [[|c t]|] bc];
      repeat (constructor;
              [vm_compute;
               repeat (constructor;
                       [intros args H;
                        first [ discriminate H
                              | injection H as <-; eexists _, _;
                                repeat split; discriminate ]|]);
               constructor|]);
      constructor.
  - destruct env as [ne [[|c t]|] bc];
      repeat split; vm_compute; reflexivity.
Qed.

(** X15: the three exported configurations take [mode], [devtool], [output]
    and [module] from the shared configuration as they are, keep its
    minimizers and [sideEffects] under [optimization] while each adds its
    own [splitChunks], and each adds its own [entry]; the shared
    configuration has neither [entry] nor [splitChunks]. *)
Theorem exports_extend_sharedConfig env :
  Forall
    (fun config =>
       get config "mode" = mode env
       /\ get config "devtool" = get (sharedConfig env) "devtool"
       /\ get config "output" = get (sharedConfig env) "output"
       /\ get config "module" = get (sharedConfig env) "module"
       /\ get (get config "optimization") "minimizer"
          = get (get (sharedConfig env) "optimization") "minimizer"
       /\ get (get config "optimization") "sideEffects" = VBool true
       /\ get (get config "optimization") "splitChunks" ≠ VUndefined
       /\ get config "entry" ≠ VUndefined
       /\ List.map fst (props_of config)
          = List.map str
              ["mode"; "devtool"; "output"; "module"; "plugins";
               "optimization"; "entry"]%string)
    (module_exports env)
  /\ get (sharedConfig env) "entry" = VUndefined
  /\ get (get (sharedConfig env) "optimization") "splitChunks" = VUndefined.
Proof.
  split; [|split; reflexivity].
  unfold module_exports.
  repeat (constructor;
          [repeat split; first [reflexivity | discriminate]|]).
  constructor.
Qed.

End ConfigFacts.

(** ** Chunk names with a directory *)

Lemma jsName_slash_free (pathname : list N) : 47%N ∉ jsName pathname.
Proof.
  rewrite jsName_take. intros H%subseteq_take.
  by apply (filenameOf_slash_free pathname).
Qed.

Lemma cssName_slash_free (pathname : list N) : 47%N ∉ cssName pathname.
Proof.
  rewrite cssName_take. intros H%subseteq_take.
  by apply (filenameOf_slash_free pathname).
Qed.

Lemma filter_all_map (p : list N -> bool) (f : list N -> list N)
    (l : list (list N)) :
  (forall x, p (f x) = true) ->
  List.filter p (List.map f l) = List.map f l.
Proof.
  intros Hp. induction l as [|x l IH]; cbn; [done|].
  by rewrite Hp, IH.
Qed.

(** X5: no listed name contains ['/'], whatever the input, since the
    bare names are cut from the base filename.  So an entry chunk whose
    name has a directory part, such as [js/main], is never recognized:
    none of the files is left out, its own included. *)
Theorem entry_with_slash_never_omitted
    (htmlWebpackPlugin : HtmlWebpackPlugin) (entry : jsstring)
    (scripts styles : list jsstring) :
  Forall (fun name => 47%N ∉ name) (jsChunks htmlWebpackPlugin)
  /\ Forall (fun name => 47%N ∉ name) (cssChunks htmlWebpackPlugin)
  /\ (47%N ∈ entry ->
      jsChunks (buildInput entry scripts styles) = List.map jsName scripts
      /\ cssChunks (buildInput entry scripts styles)
         = List.map cssName styles).
Proof.
  split; [|split].
  - apply Forall_forall. intros name [Hin _]%elem_of_List_filter.
    apply elem_of_List_map in Hin as (path & -> & _).
    apply jsName_slash_free.
  - apply Forall_forall. intros name [Hin _]%elem_of_List_filter.
    apply elem_of_List_map in Hin as (path & -> & _).
    apply cssName_slash_free.
  - intros Hentry. split.
    + rewrite jsChunks_buildInput. apply filter_all_map. intros path.
      apply loose_neq_Some. intros Heq.
      apply (jsName_slash_free path). by rewrite Heq.
    + rewrite cssChunks_buildInput. apply filter_all_map. intros path.
      apply loose_neq_Some. intros Heq.
      apply (cssName_slash_free path). by rewrite Heq.
Qed.

Lemma entry_with_slash_never_omitted_witness :
  jsChunks (buildInput (str "js/main") [str "js/main.js"; str "js/vendor.js"]
              [str "css/main.css"])
  = List.map jsName [str "js/main.js"; str "js/vendor.js"].
Proof.
  apply (proj2 (proj2
           (entry_with_slash_never_omitted
              (buildInput (str "js/main")
                 [str "js/main.js"; str "js/vendor.js"] [str "css/main.css"])
              (str "js/main") [str "js/main.js"; str "js/vendor.js"]
              [str "css/main.css"]))).
  vm_compute. do 2 apply list_elem_of_further. apply list_elem_of_here.
Defined.
